(** * mx: the OS-abstraction layer ([mx_system.py]) and the console
      reporter ([mx_logging.py]), as a shallow embedding.

    Python functions become functions in a state-and-exception monad over
    a [world] that holds the interpreter-level globals the two modules
    read and write ([sys.platform], [_opts], [_currentSubprocesses], the
    two console streams) and the state of the operating system.  Calls
    into the operating system and into the Python standard library
    ([os], [shutil], [os.path], [time]) are the fields of the [System]
    interface; nothing is assumed about them. *)

From Stdlib Require Import ZArith List String Ascii Bool DecimalString.
Import ListNotations.
Open Scope string_scope.

Set Implicit Arguments.

(** ** Python strings *)

Definition nl : string := String (ascii_of_nat 10) EmptyString.
Definition esc : string := String (ascii_of_nat 27) EmptyString.
Definition dquote : string := String (ascii_of_nat 34) EmptyString.

(** [s.startswith(p)] *)
Definition startswith (s p : string) : bool := String.prefix p s.

(** [s[n:]] *)
Fixpoint slice_from (n : nat) (s : string) : string :=
  match n, s with
  | O, _ => s
  | S _, EmptyString => EmptyString
  | S n', String _ t => slice_from n' t
  end.

(** [c in s] for a one-character [c] *)
Fixpoint contains (c : ascii) (s : string) : bool :=
  match s with
  | EmptyString => false
  | String a t => if Ascii.eqb a c then true else contains c t
  end.

(** [s.split(sep)] for a one-character separator *)
Fixpoint split (sep : ascii) (s : string) : list string :=
  match s with
  | EmptyString => [EmptyString]
  | String a t =>
      if Ascii.eqb a sep then EmptyString :: split sep t
      else match split sep t with
           | h :: r => String a h :: r
           | [] => [String a EmptyString]
           end
  end.

(** [sep.join(l)] *)
Definition join (sep : string) (l : list string) : string := String.concat sep l.

(** [str(n)] for an integer *)
Definition str_of_Z (n : Z) : string := NilZero.string_of_int (Z.to_int n).

(** Truthiness of a string: [if s:] *)
Definition nonempty (s : string) : bool :=
  match s with EmptyString => false | String _ _ => true end.

(** ** Python values and exceptions *)

(** The values that reach the message and status parameters. *)
Inductive value :=
| VNone
| VInt (n : Z)
| VStr (s : string).

(** [str(v)] *)
Definition py_str (v : value) : string :=
  match v with
  | VNone => "None"
  | VInt n => str_of_Z n
  | VStr s => s
  end.

Definition type_name (v : value) : string :=
  match v with
  | VNone => "NoneType"
  | VInt _ => "int"
  | VStr _ => "str"
  end.

(** Exceptions, each with the text [str(e)] renders, [SystemExit] with its
    exit status. *)
Inductive exn :=
| SystemExit (code : Z)
| TypeError (msg : string)
| AttributeError (msg : string)
| AssertionError (msg : string)
| OSError (msg : string).

Definition exn_str (e : exn) : string :=
  match e with
  | SystemExit c => str_of_Z c
  | TypeError m | AttributeError m | AssertionError m | OSError m => m
  end.

(** [a + b] where [a] is a [str]: defined on strings only. *)
Definition str_add (a : string) (b : value) : exn + string :=
  match b with
  | VStr s => inr (a ++ s)
  | _ => inl (TypeError ("can only concatenate str (not " ++ dquote ++ type_name b
                         ++ dquote ++ ") to str"))
  end.

(** The [context] argument of [warn] and [abort]: a callable, an object
    with an [__abort_context__] method, or anything else, each with the
    string it yields. *)
Inductive context_value :=
| CtxCallable (returns : string)
| CtxAbortContext (returns : string)
| CtxOther (str : string).

(** ** Processes and the operating system *)

(** What a registry entry holds as its process handle. *)
Inductive handle :=
| Popen (pid : Z)
| Process (pid : Z)
| NotAProcess (repr : string).

Definition SIGQUIT : Z := 3.
Definition SIGKILL : Z := 9.
Definition SIGTERM : Z := 15.
Definition S_IWRITE : Z := 128.

(** The functions [shutil.rmtree] and [rmtree] hand to [onerror]. *)
Inductive os_func := f_remove | f_rmdir | f_unlink | f_listdir.

(** The operating system and the library calls that reach it.  A call
    that can fail returns [inl text] for an [OSError] with that text. *)
Class System := {
  OS : Type;
  os_getpid : OS -> Z;
  os_getpgid : Z -> OS -> string + Z;
  os_kill : Z -> Z -> OS -> string + OS;
  os_killpg : Z -> Z -> OS -> string + OS;
  (** [p.poll() is None] for a [subprocess.Popen] *)
  popen_running : Z -> OS -> bool;
  (** [p.is_alive()] for a [multiprocessing.Process] *)
  process_is_alive : Z -> OS -> bool;
  (** [p.terminate()] *)
  proc_terminate : Z -> OS -> string + OS;
  (** [time.sleep(0.1)]: what the system does meanwhile *)
  time_sleep : OS -> OS;
  isdir : string -> OS -> bool;
  os_remove : string -> OS -> string + OS;
  os_chmod : string -> Z -> OS -> string + OS;
  os_rmdir : string -> OS -> string + OS;
  os_unlink : string -> OS -> string + OS;
  (** [shutil.rmtree(path, onerror=h)] *)
  shutil_rmtree : string -> (os_func -> string -> exn -> OS -> exn + OS) -> OS -> exn + OS;
  (** [os.path.normpath], [os.path.isabs] and [os.sep] of the running
      platform *)
  normpath : string -> string;
  isabs : string -> bool;
  os_sep : ascii
}.

(** ** The interpreter state *)

(** A queued zero-argument replay closure: [_deferrable] of [logv] or of
    [logvv], with the message it captured. *)
Inductive deferrable :=
| Deferred_logv (msg : value)
| Deferred_logvv (msg : value).

(** Modelled from the spec: [mx_shared], which creates [_opts], is not part
    of the sources; the options record exposes the flags quiet, verbose,
    very-verbose, warnings-enabled and kill-with-alternate-signal and the
    queue of deferred log calls.  [None] is a flag that is not determined
    yet (absent, or holding [None]). *)
Record Namespace := {
  opts_quiet : option bool;
  opts_verbose : option bool;
  opts_very_verbose : option bool;
  opts_warn : bool;
  opts_killwithsigquit : option bool;
  opts_parsed_deferrables : list deferrable
}.

(** The record after [_parsed_deferrables.append(d)]. *)
Definition enqueue (d : deferrable) (o : Namespace) : Namespace :=
  {| opts_quiet := opts_quiet o;
     opts_verbose := opts_verbose o;
     opts_very_verbose := opts_very_verbose o;
     opts_warn := opts_warn o;
     opts_killwithsigquit := opts_killwithsigquit o;
     opts_parsed_deferrables := opts_parsed_deferrables o ++ [d] |}.

(** Truthiness of a flag. *)
Definition truthy (f : option bool) : bool :=
  match f with Some true => true | _ => false end.

(** A stream object: whether it has [isatty] and what it answers, and its
    textual representation. *)
Record stream := {
  stream_isatty : option bool;
  stream_repr : string
}.

(** What reached a console stream. *)
Inductive emitted :=
| Printed (text : string)
| StackTrace.

(** ** The monad: state passing with exceptions *)

Inductive result (A : Type) :=
| Ret (a : A)
| Exc (e : exn).
Arguments Exc {A} e.

Definition M (W A : Type) : Type := W -> result A * W.

Definition ret {W A} (a : A) : M W A := fun w => (Ret a, w).

Definition raise {W A} (e : exn) : M W A := fun w => (Exc e, w).

Definition bind {W A B} (m : M W A) (k : A -> M W B) : M W B :=
  fun w => match m w with
           | (Ret a, w') => k a w'
           | (Exc e, w') => (Exc e, w')
           end.

(** [try: m  except: h], for a handler that catches everything it is
    given *)
Definition try_except {W A} (m : M W A) (h : exn -> M W A) : M W A :=
  fun w => match m w with
           | (Ret a, w') => (Ret a, w')
           | (Exc e, w') => h e w'
           end.

Definition gets {W A} (f : W -> A) : M W A := fun w => (Ret (f w), w).

Definition modify {W} (f : W -> W) : M W unit := fun w => (Ret tt, f w).

Definition when {W} (b : bool) (m : M W unit) : M W unit :=
  if b then m else ret tt.

(** [for x in l: body(x)] *)
Fixpoint for_each {W X} (l : list X) (body : X -> M W unit) : M W unit :=
  match l with
  | [] => ret tt
  | x :: r => bind (body x) (fun _ => for_each r body)
  end.

Declare Scope mx_scope.
Delimit Scope mx_scope with mx.
Notation "x <- m ;; k" := (bind m (fun x => k))
  (at level 61, m at next level, right associativity) : mx_scope.
Notation "m ;; k" := (bind m (fun _ => k))
  (at level 61, right associativity) : mx_scope.
Open Scope mx_scope.

Section Mx.
Context {sys : System}.

Record world := {
  sys_platform : string;
  _opts : option Namespace;
  _currentSubprocesses : list (option handle * list string);
  sys_stderr : stream;
  stdout : list emitted;
  stderr : list emitted;
  os : OS
}.

Definition with_opts (o : option Namespace) (w : world) : world :=
  {| sys_platform := sys_platform w; _opts := o;
     _currentSubprocesses := _currentSubprocesses w; sys_stderr := sys_stderr w;
     stdout := stdout w; stderr := stderr w; os := os w |}.

Definition with_stdout (l : list emitted) (w : world) : world :=
  {| sys_platform := sys_platform w; _opts := _opts w;
     _currentSubprocesses := _currentSubprocesses w; sys_stderr := sys_stderr w;
     stdout := l; stderr := stderr w; os := os w |}.

Definition with_stderr (l : list emitted) (w : world) : world :=
  {| sys_platform := sys_platform w; _opts := _opts w;
     _currentSubprocesses := _currentSubprocesses w; sys_stderr := sys_stderr w;
     stdout := stdout w; stderr := l; os := os w |}.

Definition with_os (o : OS) (w : world) : world :=
  {| sys_platform := sys_platform w; _opts := _opts w;
     _currentSubprocesses := _currentSubprocesses w; sys_stderr := sys_stderr w;
     stdout := stdout w; stderr := stderr w; os := o |}.

(** [print(s)]: [s] and a newline on standard output *)
Definition print_stdout (s : string) : M world unit :=
  modify (fun w => with_stdout (stdout w ++ [Printed (s ++ nl)]) w).

(** [print(s, file=sys.stderr)] *)
Definition print_stderr (s : string) : M world unit :=
  modify (fun w => with_stderr (stderr w ++ [Printed (s ++ nl)]) w).

(** [traceback.print_stack()] *)
Definition print_stack : M world unit :=
  modify (fun w => with_stderr (stderr w ++ [StackTrace]) w).

(** A value or an exception, into the monad. *)
Definition lift {A} (r : exn + A) : M world A :=
  match r with
  | inl e => raise e
  | inr a => ret a
  end.

(** A call that changes the operating system or fails with [OSError]. *)
Definition os_call (f : OS -> string + OS) : M world unit :=
  fun w => match f (os w) with
           | inl m => (Exc (OSError m), w)
           | inr o => (Ret tt, with_os o w)
           end.

(** [shutil.rmtree] and the [onerror] handlers, which raise what they
    like. *)
Definition os_call_exn (f : OS -> exn + OS) : M world unit :=
  fun w => match f (os w) with
           | inl e => (Exc e, w)
           | inr o => (Ret tt, with_os o w)
           end.

(** [time.sleep(0.1)] *)
Definition sleep : M world unit := modify (fun w => with_os (time_sleep (os w)) w).

(** [vars(_opts)] *)
Definition vars_opts : M world Namespace :=
  fun w => match _opts w with
           | Some o => (Ret o, w)
           | None => (Exc (TypeError "vars() argument must have __dict__ attribute"), w)
           end.

(** [_opts._parsed_deferrables.append(d)] *)
Definition append_deferrable (d : deferrable) : M world unit :=
  fun w => match _opts w with
           | Some o => (Ret tt, with_opts (Some (enqueue d o)) w)
           | None =>
               (Exc (AttributeError
                       "'NoneType' object has no attribute '_parsed_deferrables'"), w)
           end.

(** ** mx_logging.py *)

Definition log (msg : value) : M world unit :=
  o <- vars_opts ;;
  if truthy (opts_quiet o) then ret tt
  else match msg with
       | VNone => print_stdout ""
       | _ => print_stdout (py_str msg)
       end.

(** What [log(msg)] hands to [print]. *)
Definition log_text (msg : value) : string :=
  match msg with
  | VNone => ""
  | _ => py_str msg
  end.

Definition logv (msg : value) : M world unit :=
  o <- vars_opts ;;
  match opts_verbose o with
  | None => append_deferrable (Deferred_logv msg)
  | Some b => when b (log msg)
  end.

Definition logvv (msg : value) : M world unit :=
  o <- vars_opts ;;
  match opts_very_verbose o with
  | None => append_deferrable (Deferred_logvv msg)
  | Some b => when b (log msg)
  end.

(** Calling a queued closure: [_deferrable()]. *)
Definition call_deferrable (d : deferrable) : M world unit :=
  match d with
  | Deferred_logv msg => logv msg
  | Deferred_logvv msg => logvv msg
  end.

Definition _ansi_color_table : list (string * string) :=
  [("black", "30"); ("red", "31"); ("green", "32"); ("yellow", "33");
   ("blue", "34"); ("magenta", "35"); ("cyan", "36")].

(** [d.get(k, None)] *)
Fixpoint dict_get (k : string) (d : list (string * string)) : option string :=
  match d with
  | [] => None
  | (k', v) :: r => if String.eqb k k' then Some v else dict_get k r
  end.

Definition dict_keys (d : list (string * string)) : list string := map fst d.

(** [sys.platform.startswith('linux') or sys.platform in ['darwin', 'freebsd']] *)
Definition isUnix (platform : string) : bool :=
  startswith platform "linux" || existsb (String.eqb platform) ["darwin"; "freebsd"].

(** [hasattr(stream, 'isatty') and stream.isatty()] *)
Definition stream_is_tty (s : stream) : bool :=
  match stream_isatty s with
  | Some b => b
  | None => false
  end.

(** [colorize], with the [abort] it calls as a parameter: [abort] is
    defined further down and itself logs through [colorize]. *)
Definition colorize_with (abort_ : value -> M world unit)
    (msg : option string) (color : string) (bright : bool) (stream_ : stream)
  : M world (option string) :=
  match msg with
  | None => ret None
  | Some msg =>
      code <- match dict_get color _ansi_color_table with
              | Some code => ret code
              | None =>
                  abort_ (VStr ("Unsupported color: " ++ color ++ "." ++ nl
                                ++ "Supported colors are: "
                                ++ join ", " (dict_keys _ansi_color_table))) ;;
                  (* [abort] does not return; were it to, [code] is [None] and
                     the next use of it fails *)
                  raise (TypeError
                           (if bright
                            then "unsupported operand type(s) for +=: 'NoneType' and 'str'"
                            else "can only concatenate str (not " ++ dquote ++ "NoneType"
                                 ++ dquote ++ ") to str"))
              end ;;
      let code := if bright then code ++ ";1" else code in
      let color_on := esc ++ "[" ++ code ++ "m" in
      if negb (startswith msg color_on) then
        platform <- gets sys_platform ;;
        if isUnix platform && stream_is_tty stream_
        then ret (Some (color_on ++ msg ++ esc ++ "[0m"))
        else ret (Some msg)
      else ret (Some msg)
  end.

(** [print(x)] of what [colorize] returned. *)
Definition str_of_colorized (c : option string) : string :=
  match c with
  | Some s => s
  | None => "None"
  end.

Definition log_error_with (abort_ : value -> M world unit) (msg : value)
  : M world unit :=
  match msg with
  | VNone =>
      st <- gets sys_stderr ;;
      print_stderr (stream_repr st)
  | _ =>
      st <- gets sys_stderr ;;
      c <- colorize_with abort_ (Some (py_str msg)) "red" true st ;;
      print_stderr (str_of_colorized c)
  end.

(** The string a context yields, by the three-way dispatch of [warn] and
    [abort]: called, asked through [__abort_context__], or converted. *)
Definition describe (context : context_value) : string :=
  match context with
  | CtxCallable s => s
  | CtxAbortContext s => s
  | CtxOther s => s
  end.

Definition warn_with (abort_ : value -> M world unit) (msg : value)
    (context : option context_value) : M world unit :=
  o <- (fun w => match _opts w with
                 | Some o => (Ret o, w)
                 | None => (Exc (AttributeError
                                   "'NoneType' object has no attribute 'warn'"), w)
                 end) ;;
  when (opts_warn o)
    (msg <- match context with
            | Some c => s <- lift (str_add (describe c ++ ":" ++ nl) msg) ;; ret (VStr s)
            | None => ret msg
            end ;;
     text <- lift (str_add "WARNING: " msg) ;;
     st <- gets sys_stderr ;;
     c <- colorize_with abort_ (Some text) "magenta" true st ;;
     print_stderr (str_of_colorized c)).

(** ** mx_system.py *)

Definition is_darwin : M world bool :=
  gets (fun w => startswith (sys_platform w) "darwin").

Definition is_linux : M world bool :=
  gets (fun w => startswith (sys_platform w) "linux").

Definition is_openbsd : M world bool :=
  gets (fun w => startswith (sys_platform w) "openbsd").

Definition is_sunos : M world bool :=
  gets (fun w => startswith (sys_platform w) "sunos").

Definition is_windows : M world bool :=
  gets (fun w => startswith (sys_platform w) "win32").

Definition is_cygwin : M world bool :=
  gets (fun w => startswith (sys_platform w) "cygwin").

Definition is_process_alive (p : option handle) : M world bool :=
  match p with
  | Some (Popen pid) => gets (fun w => popen_running pid (os w))
  | Some (Process pid) => gets (fun w => process_is_alive pid (os w))
  | Some (NotAProcess r) => raise (AssertionError r)
  | None => raise (AssertionError "None")
  end.

(** [p.pid] *)
Definition handle_pid (p : option handle) : M world Z :=
  match p with
  | Some (Popen pid) => ret pid
  | Some (Process pid) => ret pid
  | Some (NotAProcess _) => raise (AttributeError "object has no attribute 'pid'")
  | None => raise (AttributeError "'NoneType' object has no attribute 'pid'")
  end.

(** [p.terminate()] *)
Definition handle_terminate (p : option handle) : M world unit :=
  pid <- handle_pid p ;;
  os_call (proc_terminate pid).

Definition send_sigquit (current_subprocess : list (option handle * list string))
  : M world unit :=
  for_each current_subprocess (fun entry =>
    let '(p, args) := entry in
    let _isJava : bool :=
      match args with
      | a0 :: _ => String.eqb (last (split os_sep a0) EmptyString) "java"
      | [] => false
      end in
    alive <- match p with
             | Some _ => is_process_alive p
             | None => ret false
             end ;;
    when (alive && _isJava)
      (win <- is_windows ;;
       (if win
        then log (VStr "mx: implement me! want to send SIGQUIT to my child process")
        else
          pid <- handle_pid p ;;
          (* only send SIGQUIT to the child not the process group *)
          logv (VStr ("sending SIGQUIT to " ++ str_of_Z pid)) ;;
          os_call (os_kill pid SIGQUIT)) ;;
       sleep)).

Definition kill_process (pid sig : Z) : M world bool :=
  pgid <- (fun w => match os_getpgid pid (os w) with
                    | inl m => (Exc (OSError m), w)
                    | inr g => (Ret g, w)
                    end) ;;
  try_except
    (self <- gets (fun w => os_getpid (os w)) ;;
     logvv (VStr ("[" ++ str_of_Z self ++ " sending " ++ str_of_Z sig ++ " to "
                  ++ str_of_Z pid ++ "]")) ;;
     (if (pgid =? pid)%Z
      then os_call (os_killpg pgid sig)
      else os_call (os_kill pid sig)) ;;
     ret true)
    (fun e =>
       log (VStr ("Error killing subprocess " ++ str_of_Z pid ++ ": " ++ exn_str e)) ;;
       ret false).

(** Lines 259 to 282 of [abort]: the quit signal when configured, the
    termination of every tracked subprocess, the stack trace when verbose.
    [log_error_] is [log_error], which is defined once [abort] is. *)
Definition abort_teardown (log_error_ : value -> M world unit) (killsig : Z)
  : M world unit :=
  o <- gets _opts ;;
  when (match o with Some o => truthy (opts_killwithsigquit o) | None => false end)
    (logv (VStr "sending SIGQUIT to subprocesses on abort") ;;
     subs <- gets _currentSubprocesses ;;
     send_sigquit subs) ;;
  subs <- gets _currentSubprocesses ;;
  for_each subs (fun entry =>
    let '(p, args) := entry in
    alive <- is_process_alive p ;;
    when alive
      (win <- is_windows ;;
       (if win
        then handle_terminate p
        else pid <- handle_pid p ;; _ <- kill_process pid killsig ;; ret tt) ;;
       sleep) ;;
    alive <- is_process_alive p ;;
    when alive
      (try_except
         (win <- is_windows ;;
          if win
          then handle_terminate p
          else pid <- handle_pid p ;; _ <- kill_process pid SIGKILL ;; ret tt)
         (fun e =>
            alive <- is_process_alive p ;;
            when alive
              (pid <- handle_pid p ;;
               log_error_ (VStr ("error while killing subprocess " ++ str_of_Z pid
                                 ++ " " ++ dquote ++ join " " args ++ dquote ++ ": "
                                 ++ exn_str e)))))) ;;
  o <- gets _opts ;;
  when (match o with Some o => truthy (opts_verbose o) | None => false end)
    print_stack.

(** Lines 283 to 303 of [abort]: the context message, then the message
    to log and the exit status. *)
Definition abort_resolve (codeOrMessage : value) (context : option context_value)
  : exn + (value * Z) :=
  let contextMsg :=
    match context with
    | Some c => describe c
    | None => ""
    end in
  match codeOrMessage with
  | VInt n =>
      (* Log the context separately so that SystemExit
         communicates the intended exit status *)
      inr (VStr contextMsg, n)
  | _ =>
      if nonempty contextMsg
      then match str_add (contextMsg ++ ":" ++ nl) codeOrMessage with
           | inl e => inl e
           | inr s => inr (VStr s, 1%Z)
           end
      else inr (codeOrMessage, 1%Z)
  end.

(** [abort] with the [log_error] it calls as a parameter. *)
Definition abort_with (log_error_ : value -> M world unit)
    (codeOrMessage : value) (context : option context_value) (killsig : Z)
  : M world unit :=
  abort_teardown log_error_ killsig ;;
  r <- lift (abort_resolve codeOrMessage context) ;;
  let '(error_message, error_code) := r in
  log_error_ error_message ;;
  raise (SystemExit error_code).

(** Tying the knot: [colorize] calls [abort], which calls [log_error],
    which calls [colorize].  [log_error] passes the colour red, which the
    table holds, so the [abort] inside [colorize] is not reached from it,
    whatever stands for it (lemma [log_error_with_irrelevant]).
    [log_error] is closed on that, [abort] on [log_error], and [colorize]
    and [warn] on [abort]; lemma [log_error_calls_colorize] gives
    [log_error] back as the source writes it. *)
Definition log_error (msg : value) : M world unit :=
  log_error_with (fun _ => ret tt) msg.

Definition abort (codeOrMessage : value) (context : option context_value)
    (killsig : Z) : M world unit :=
  abort_with log_error codeOrMessage context killsig.

Definition colorize (msg : option string) (color : string) (bright : bool)
    (stream_ : stream) : M world (option string) :=
  colorize_with (fun m => abort m None SIGTERM) msg color bright stream_.

Definition warn (msg : value) (context : option context_value) : M world unit :=
  warn_with (fun m => abort m None SIGTERM) msg context.

(** A call of [abort] as the call sites write it.  [codeOrMessage] is a
    required positional parameter, it has no default: [None] here is a call
    that passes nothing for it, [abort()], which the interpreter rejects
    before the body runs. *)
Definition call_abort (codeOrMessage : option value)
    (context : option context_value) (killsig : Z) : M world unit :=
  match codeOrMessage with
  | Some c => abort c context killsig
  | None =>
      raise (TypeError
               "abort() missing 1 required positional argument: 'codeOrMessage'")
  end.

(** [get_os]; falling off the end returns [None]. *)
Definition get_os : M world value :=
  b <- is_darwin ;;
  if b then ret (VStr "darwin") else
  b <- is_linux ;;
  if b then ret (VStr "linux") else
  b <- is_openbsd ;;
  if b then ret (VStr "openbsd") else
  b <- is_sunos ;;
  if b then ret (VStr "solaris") else
  b <- is_windows ;;
  if b then ret (VStr "windows") else
  b <- is_cygwin ;;
  if b then ret (VStr "cygwin") else
  call_abort None None SIGTERM ;;
  ret VNone.

Definition safe_path (path : string) : M world string :=
  o <- gets _opts ;;
  let verbose := match o with Some o => truthy (opts_verbose o) | None => false end in
  win <- is_windows ;;
  if win then
    when (verbose && contains "/" path)
      (warn (VStr ("Forward slash in path on windows: " ++ path)) None ;;
       print_stack) ;;
    let path := normpath path in
    let path :=
      if isabs path then
        if startswith path "\\" then
          if startswith (slice_from 2 path) "?\" then
            (* if it already has a \\?\ don't do the prefix *)
            path
          else
            (* only a UNC path has a double slash prefix *)
            "\\?\UNC" ++ path
        else "\\?\" ++ path
      else path in
    (* [_unicode(path)] leaves a string as it is *)
    ret path
  else ret path.

(** The three [on_error] handlers of [rmtree]. *)
Definition on_error (ignore_errors win : bool)
  : os_func -> string -> exn -> OS -> exn + OS :=
  if ignore_errors then
    fun _ _ _ o => inr o
  else if win then
    fun _ _path _ o =>
      match os_chmod _path S_IWRITE o with
      | inl m => inl (OSError m)
      | inr o1 =>
          match (if isdir _path o1 then os_rmdir _path o1 else os_unlink _path o1) with
          | inl m => inl (OSError m)
          | inr o2 => inr o2
          end
      end
  else
    fun _ _ e _ => inl e.

Definition rmtree (path : string) (ignore_errors : bool) : M world unit :=
  path <- safe_path path ;;
  win <- is_windows ;;
  let on_error := on_error ignore_errors win in
  d <- gets (fun w => isdir path (os w)) ;;
  if d then os_call_exn (shutil_rmtree path on_error)
  else
    try_except (os_call (os_remove path))
      (fun e =>
         match e with
         | OSError _ => os_call_exn (on_error f_remove path e)
         | _ => raise e
         end).

Definition abort_or_warn (message : value) (should_abort : bool)
    (context : option context_value) : M world unit :=
  if should_abort then call_abort None None SIGTERM
  else warn message context.

End Mx.

Arguments world {sys}.

(** ** A small concrete system

    Processes are pairs of a process id and a process group id, files are
    names, and process 1 takes no signal; enough to run the functions
    above on examples. *)

Record sim := {
  sim_procs : list (Z * Z);
  sim_files : list string;
  sim_sent : list (Z * Z)
}.

Definition sim_find (pid : Z) (s : sim) : option Z :=
  match find (fun p => (fst p =? pid)%Z) (sim_procs s) with
  | Some p => Some (snd p)
  | None => None
  end.

Definition sim_signal (keep : Z * Z -> bool) (target sig : Z) (s : sim) : string + sim :=
  if forallb keep (sim_procs s) then inl "[Errno 3] No such process"
  else if (target =? 1)%Z then inl "[Errno 1] Operation not permitted"
  else inr {| sim_procs := if ((sig =? SIGKILL) || (sig =? SIGTERM))%Z
                           then filter keep (sim_procs s) else sim_procs s;
              sim_files := sim_files s;
              sim_sent := sim_sent s ++ [(target, sig)] |}.

Definition sim_remove (path : string) (s : sim) : string + sim :=
  if existsb (String.eqb path) (sim_files s)
  then inr {| sim_procs := sim_procs s;
              sim_files := filter (fun f => negb (String.eqb path f)) (sim_files s);
              sim_sent := sim_sent s |}
  else inl ("[Errno 2] No such file or directory: '" ++ path ++ "'").

Definition sim_isabs (path : string) : bool :=
  startswith path "\" || startswith (slice_from 1 path) ":\".

Definition sim_system : System := {|
  OS := sim;
  os_getpid := fun _ => 100%Z;
  os_getpgid := fun pid s =>
    match sim_find pid s with
    | Some g => inr g
    | None => inl "[Errno 3] No such process"
    end;
  os_kill := fun pid sig => sim_signal (fun p => negb (fst p =? pid)%Z) pid sig;
  os_killpg := fun pgid sig => sim_signal (fun p => negb (snd p =? pgid)%Z) pgid sig;
  popen_running := fun pid s => match sim_find pid s with Some _ => true | None => false end;
  process_is_alive := fun pid s => match sim_find pid s with Some _ => true | None => false end;
  proc_terminate := fun pid => sim_signal (fun p => negb (fst p =? pid)%Z) pid SIGTERM;
  time_sleep := fun s => s;
  isdir := fun _ _ => false;
  os_remove := sim_remove;
  os_chmod := fun path _ s =>
    if existsb (String.eqb path) (sim_files s) then inr s
    else inl ("[Errno 2] No such file or directory: '" ++ path ++ "'");
  os_rmdir := fun path _ => inl ("[Errno 20] Not a directory: '" ++ path ++ "'");
  os_unlink := sim_remove;
  shutil_rmtree := fun _ _ s => inr s;
  normpath := fun path => path;
  isabs := sim_isabs;
  os_sep := "/"%char
|}.

Definition sim_opts (quiet_ verbose_ : option bool) : Namespace :=
  {| opts_quiet := quiet_; opts_verbose := verbose_; opts_very_verbose := verbose_;
     opts_warn := true; opts_killwithsigquit := Some false;
     opts_parsed_deferrables := [] |}.

Definition sim_world (platform : string) (o : Namespace) (tty : bool)
    (subs : list (option handle * list string)) (s : sim) : @world sim_system :=
  @Build_world sim_system platform (Some o) subs
    {| stream_isatty := Some tty; stream_repr := "<stderr>" |} [] [] s.

Definition sim_empty : sim := {| sim_procs := []; sim_files := []; sim_sent := [] |}.

(** Worlds to evaluate in: Linux with nothing running and no file; the
    same with quiet mode on and the verbose flag not determined, and then
    with the flag set and the deferred call queued; Linux with the process
    group of 42 and process 1; Linux with one file; Windows; Windows with
    process 1 as a tracked subprocess; FreeBSD. *)
Definition sim_linux : @world sim_system :=
  sim_world "linux" (sim_opts None None) false [] sim_empty.

Definition sim_quiet_early : @world sim_system :=
  sim_world "linux" (sim_opts (Some true) None) false [] sim_empty.

Definition sim_quiet_parsed : @world sim_system :=
  sim_world "linux"
    (enqueue (Deferred_logv (VStr "m")) (sim_opts (Some true) (Some true)))
    false [] sim_empty.

Definition sim_verbose_parsed : @world sim_system :=
  sim_world "linux" (sim_opts (Some false) (Some true)) false [] sim_empty.

Definition sim_running : @world sim_system :=
  sim_world "linux" (sim_opts (Some true) (Some false)) false []
    {| sim_procs := [(1, 1); (42, 42); (43, 42)]%Z; sim_files := []; sim_sent := [] |}.

Definition sim_one_file : @world sim_system :=
  sim_world "linux" (sim_opts None None) false []
    {| sim_procs := []; sim_files := ["a.txt"]; sim_sent := [] |}.

Definition sim_windows : @world sim_system :=
  sim_world "win32" (sim_opts None (Some true)) false [] sim_empty.

Definition sim_windows_child : @world sim_system :=
  sim_world "win32" (sim_opts None None) false [(Some (Popen 1), ["cmd.exe"])]
    {| sim_procs := [(1, 1)]%Z; sim_files := []; sim_sent := [] |}.

Definition sim_freebsd : @world sim_system :=
  sim_world "freebsd13" (sim_opts None None) false [] sim_empty.

(** ** The rest of mx_system.py *)

(** [cpu_count]: [cpus] is what [multiprocessing.cpu_count()] answers and
    [cap] is [_opts.cpu_count], [None] when it holds [None]. *)
Definition cpu_count (cpus : Z) (cap : option Z) : Z :=
  match cap with
  | Some c =>
      if (c =? 0)%Z then cpus
      else if (cpus <=? c)%Z then cpus else c
  | None => cpus
  end.

Section Wrappers.
Context {sys : System}.

(** The library calls behind the wrappers, with what they answer. *)
Variables Mtime Stat File Ignore : Type.
Variable os_path_getmtime : string -> OS -> string + Mtime.
Variable os_stat : string -> OS -> string + Stat.
Variable os_lstat : string -> OS -> string + Stat.
Variable builtins_open : string -> string -> OS -> string + (File * OS).
Variable shutil_copytree : string -> string -> bool -> option Ignore -> OS -> string + OS.







End Wrappers.

(** ** Properties *)

Section Properties.
Context {sys : System}.

Ltac run := unfold bind, ret, raise, gets, modify, when, lift; simpl.

#[local] Arguments colorize_with : simpl never.
#[local] Arguments warn : simpl never.
#[local] Arguments log_error : simpl never.

Lemma startswith_app (p s : string) : startswith (p ++ s) p = true.
Proof.
  unfold startswith. induction p as [|a p IH]; simpl.
  - destruct s; reflexivity.
  - destruct (ascii_dec a a) as [_|N]; [exact IH | contradiction].
Qed.

Lemma with_os_same (w : world) : with_os (os w) w = w.
Proof. destruct w; reflexivity. Qed.

(** The escape sequence that switches a colour on. *)
Lemma colorize_with_supported (abort_ : value -> M world unit) msg color bright st w code :
  dict_get color _ansi_color_table = Some code ->
  colorize_with abort_ (Some msg) color bright st w =
  (Ret (Some (let color_on := esc ++ "[" ++ (if bright then code ++ ";1" else code) ++ "m" in
              if negb (startswith msg color_on)
                 && (isUnix (sys_platform w) && stream_is_tty st)
              then color_on ++ msg ++ esc ++ "[0m"
              else msg)), w).
Proof.
  intros Hc. unfold colorize_with. rewrite Hc. run.
  destruct (startswith msg _); simpl; [reflexivity|].
  destruct (isUnix (sys_platform w) && stream_is_tty st); reflexivity.
Qed.

Lemma log_error_with_irrelevant (a b : value -> M world unit) msg w :
  log_error_with a msg w = log_error_with b msg w.
Proof.
  destruct msg; unfold log_error_with; run;
    try reflexivity;
    rewrite (@colorize_with_supported a _ "red" true _ _ "31" eq_refl),
            (@colorize_with_supported b _ "red" true _ _ "31" eq_refl);
    reflexivity.
Qed.

(** [log_error] as the source writes it, through [colorize]. *)
Lemma log_error_calls_colorize msg w :
  log_error msg w =
  match msg with
  | VNone => (st <- gets sys_stderr ;; print_stderr (stream_repr st)) w
  | _ => (st <- gets sys_stderr ;;
          c <- colorize (Some (py_str msg)) "red" true st ;;
          print_stderr (str_of_colorized c)) w
  end.
Proof.
  unfold log_error. rewrite (log_error_with_irrelevant _ (fun m => abort m None SIGTERM)).
  destruct msg; reflexivity.
Qed.

(** [log_error] returns, and leaves everything but the error stream as
    it was. *)
Lemma log_error_returns msg w :
  exists text, log_error msg w = (Ret tt, with_stderr (stderr w ++ [Printed (text ++ nl)]) w).
Proof.
  unfold log_error, log_error_with.
  destruct msg; run; try (eexists; reflexivity);
    rewrite (@colorize_with_supported _ _ "red" true _ _ "31" eq_refl);
    eexists; reflexivity.
Qed.

(** On a sink that is not an interactive terminal, [log_error] prints the
    message as it is. *)
Lemma log_error_plain s w :
  stream_is_tty (sys_stderr w) = false ->
  log_error (VStr s) w = (Ret tt, with_stderr (stderr w ++ [Printed (s ++ nl)]) w).
Proof.
  intros Htty. unfold log_error, log_error_with. run.
  rewrite (@colorize_with_supported _ _ "red" true _ _ "31" eq_refl).
  simpl. rewrite Htty, andb_false_r, andb_false_r. reflexivity.
Qed.

(** C9: [colorize] is idempotent. For every message, supported colour,
    brightness and stream, colorizing the result of [colorize] again gives
    it back; on a stream that is not an interactive terminal [colorize]
    returns the message unchanged; and [colorize(None)] is [None]. *)
Theorem colorize_idempotent msg color bright st w :
  In color (dict_keys _ansi_color_table) ->
  (exists r, colorize (Some msg) color bright st w = (Ret (Some r), w)
             /\ colorize (Some r) color bright st w = (Ret (Some r), w))
  /\ (stream_is_tty st = false ->
      colorize (Some msg) color bright st w = (Ret (Some msg), w))
  /\ colorize None color bright st w = (Ret None, w).
Proof.
  intros Hin.
  assert (Hcode : exists code, dict_get color _ansi_color_table = Some code).
  { simpl in Hin.
    repeat (destruct Hin as [<-|Hin]; [eexists; reflexivity|]). contradiction. }
  destruct Hcode as [code Hcode]. unfold colorize.
  split; [|split].
  - eexists. split.
    + apply colorize_with_supported, Hcode.
    + rewrite (@colorize_with_supported _ _ _ _ _ _ _ Hcode). cbv zeta.
      set (color_on := esc ++ "[" ++ (if bright then code ++ ";1" else code) ++ "m").
      destruct (startswith msg color_on) eqn:Hs; simpl.
      * rewrite Hs. reflexivity.
      * destruct (isUnix (sys_platform w) && stream_is_tty st) eqn:Ht; simpl.
        -- rewrite startswith_app. reflexivity.
        -- rewrite Hs. reflexivity.
  - intros Htty. rewrite (@colorize_with_supported _ _ _ _ _ _ _ Hcode).
    cbv zeta. rewrite Htty, andb_false_r, andb_false_r. reflexivity.
  - reflexivity.
Qed.

Lemma log_not_quiet msg w o :
  _opts w = Some o ->
  log msg w = if truthy (opts_quiet o) then (Ret tt, w)
              else (Ret tt, with_stdout (stdout w ++ [Printed (log_text msg ++ nl)]) w).
Proof.
  intros Ho. unfold log, vars_opts, bind. rewrite Ho.
  destruct (truthy (opts_quiet o)); [reflexivity|].
  destruct msg; reflexivity.
Qed.

(** C10: [log_error] with no message prints, on standard error, the textual
    representation of the standard-error stream object and a newline, not
    a blank line; [log] with no message prints a blank line on standard
    output (when quiet mode is off). *)
Theorem log_error_none_prints_the_stream w :
  log_error VNone w
  = (Ret tt, with_stderr (stderr w ++ [Printed (stream_repr (sys_stderr w) ++ nl)]) w)
  /\ (forall o, _opts w = Some o -> truthy (opts_quiet o) = false ->
      log VNone w = (Ret tt, with_stdout (stdout w ++ [Printed nl]) w)).
Proof.
  split; [reflexivity|].
  intros o Ho Hq. rewrite (log_not_quiet _ _ Ho), Hq. reflexivity.
Qed.

Lemma call_deferred_logv msg w o b :
  _opts w = Some o -> opts_verbose o = Some b ->
  call_deferrable (Deferred_logv msg) w =
  (Ret tt, if b && negb (truthy (opts_quiet o))
           then with_stdout (stdout w ++ [Printed (log_text msg ++ nl)]) w
           else w).
Proof.
  intros Ho Hv. simpl. unfold logv, vars_opts, bind at 1. rewrite Ho, Hv.
  destruct b; simpl; [|reflexivity].
  rewrite (log_not_quiet _ _ Ho). destruct (truthy (opts_quiet o)); reflexivity.
Qed.

Lemma call_deferred_logvv msg w o b :
  _opts w = Some o -> opts_very_verbose o = Some b ->
  call_deferrable (Deferred_logvv msg) w =
  (Ret tt, if b && negb (truthy (opts_quiet o))
           then with_stdout (stdout w ++ [Printed (log_text msg ++ nl)]) w
           else w).
Proof.
  intros Ho Hv. simpl. unfold logvv, vars_opts, bind at 1. rewrite Ho, Hv.
  destruct b; simpl; [|reflexivity].
  rewrite (log_not_quiet _ _ Ho). destruct (truthy (opts_quiet o)); reflexivity.
Qed.

(** C8, amended: a call of [logv] (of [logvv]) while the verbose (the
    very-verbose) flag is not determined neither raises nor prints: it
    returns, and all it changes is the queue of deferred calls, which gets
    one closure more.  Calling that closure once the flag is determined
    prints the message exactly once when the flag is set and quiet mode is
    off at that time, and prints nothing otherwise. *)
Theorem logv_deferred_replay msg w o :
  _opts w = Some o ->
  (opts_verbose o = None ->
   logv msg w = (Ret tt, with_opts (Some (enqueue (Deferred_logv msg) o)) w)
   /\ forall w' o' b, _opts w' = Some o' -> opts_verbose o' = Some b ->
        call_deferrable (Deferred_logv msg) w' =
        (Ret tt, if b && negb (truthy (opts_quiet o'))
                 then with_stdout (stdout w' ++ [Printed (log_text msg ++ nl)]) w'
                 else w'))
  /\ (opts_very_verbose o = None ->
      logvv msg w = (Ret tt, with_opts (Some (enqueue (Deferred_logvv msg) o)) w)
      /\ forall w' o' b, _opts w' = Some o' -> opts_very_verbose o' = Some b ->
           call_deferrable (Deferred_logvv msg) w' =
           (Ret tt, if b && negb (truthy (opts_quiet o'))
                    then with_stdout (stdout w' ++ [Printed (log_text msg ++ nl)]) w'
                    else w')).
Proof.
  intros Ho. split; intros Hv; split.
  - unfold logv, vars_opts, bind, append_deferrable. rewrite Ho, Hv, Ho. reflexivity.
  - intros w' o' b. apply call_deferred_logv.
  - unfold logvv, vars_opts, bind, append_deferrable. rewrite Ho, Hv, Ho. reflexivity.
  - intros w' o' b. apply call_deferred_logvv.
Qed.

Lemma logvv_returns msg w o :
  _opts w = Some o ->
  exists w1, logvv msg w = (Ret tt, w1) /\ os w1 = os w
             /\ exists o1, _opts w1 = Some o1 /\ opts_quiet o1 = opts_quiet o.
Proof.
  intros Ho. unfold logvv, vars_opts, bind, append_deferrable. rewrite Ho.
  destruct (opts_very_verbose o) as [[|]|]; simpl.
  - rewrite (log_not_quiet _ _ Ho). destruct (truthy (opts_quiet o));
      eexists; (split; [reflexivity|]); (split; [reflexivity|]); exists o; auto.
  - exists w. repeat split. exists o; auto.
  - rewrite Ho. eexists. split; [reflexivity|]. split; [reflexivity|].
    eexists. split; reflexivity.
Qed.

(** C2, amended: [kill_process] first resolves the process group of [pid],
    and an error of the operating system in that step is raised to the
    caller.  Past it, the signal goes to the whole group when the group id
    equals [pid] and to the single process otherwise; the function returns
    [True] when the signal was delivered, and on an error of the delivery
    it hands the failure to [log] and returns [False]. *)
Theorem kill_process_delivery pid sig w o :
  _opts w = Some o ->
  (forall m, os_getpgid pid (os w) = inl m ->
             kill_process pid sig w = (Exc (OSError m), w))
  /\ (forall pgid, os_getpgid pid (os w) = inr pgid ->
      let deliver := if (pgid =? pid)%Z then os_killpg pgid sig else os_kill pid sig in
      let w1 := snd (logvv (VStr ("[" ++ str_of_Z (os_getpid (os w)) ++ " sending "
                                  ++ str_of_Z sig ++ " to " ++ str_of_Z pid ++ "]")) w) in
      (forall o', deliver (os w) = inr o' ->
                  kill_process pid sig w = (Ret true, with_os o' w1))
      /\ (forall m, deliver (os w) = inl m ->
                    kill_process pid sig w =
                    (Ret false,
                     snd (log (VStr ("Error killing subprocess " ++ str_of_Z pid
                                     ++ ": " ++ m)) w1)))).
Proof.
  intros Ho. split.
  - intros m Hg. unfold kill_process, bind at 1. rewrite Hg. reflexivity.
  - intros pgid Hg deliver w1.
    destruct (logvv_returns (VStr ("[" ++ str_of_Z (os_getpid (os w)) ++ " sending "
                                   ++ str_of_Z sig ++ " to " ++ str_of_Z pid ++ "]")) _ Ho)
      as (w1' & Hl & Hos & o1 & Ho1 & Hq).
    assert (Hw1 : w1 = w1') by (unfold w1; rewrite Hl; reflexivity).
    clearbody w1. subst w1'.
    assert (Hd : (if (pgid =? pid)%Z then os_call (os_killpg pgid sig)
                  else os_call (os_kill pid sig)) w1
                 = match deliver (os w) with
                   | inl m => (Exc (OSError m), w1)
                   | inr o' => (Ret tt, with_os o' w1)
                   end).
    { unfold deliver. destruct (pgid =? pid)%Z; unfold os_call; rewrite Hos; reflexivity. }
    split.
    + intros o' Hok. unfold kill_process, bind at 1. rewrite Hg.
      unfold try_except, bind, gets. rewrite Hl, Hd, Hok. reflexivity.
    + intros m Hfail. unfold kill_process, bind at 1. rewrite Hg.
      unfold try_except, bind at 1 2 3, gets. rewrite Hl, Hd, Hfail.
      unfold bind, ret. cbn [exn_str].
      rewrite (log_not_quiet _ _ Ho1). destruct (truthy (opts_quiet o1)); reflexivity.
Qed.

Lemma warn_returns s w o :
  _opts w = Some o ->
  exists w1, warn (VStr s) None w = (Ret tt, w1) /\ os w1 = os w
             /\ sys_platform w1 = sys_platform w.
Proof.
  intros Ho. unfold warn, warn_with, bind at 1. rewrite Ho.
  destruct (opts_warn o); run; [|exists w; auto].
  rewrite (@colorize_with_supported _ _ "magenta" true _ _ "35" eq_refl).
  eexists. split; [reflexivity|]. split; reflexivity.
Qed.

(** [safe_path] returns, and leaves the operating system alone. *)
Lemma safe_path_returns path w :
  exists p w1, safe_path path w = (Ret p, w1) /\ os w1 = os w
               /\ sys_platform w1 = sys_platform w.
Proof.
  unfold safe_path, is_windows. run.
  destruct (startswith (sys_platform w) "win32"); [|exists path, w; auto].
  destruct (_opts w) as [o|] eqn:Ho; simpl.
  - destruct (truthy (opts_verbose o) && contains "/" path); simpl.
    + destruct (warn_returns ("Forward slash in path on windows: " ++ path) _ Ho)
        as (w1 & Hw & Hos & Hp).
      simpl in Hw. rewrite Hw. unfold print_stack, modify. simpl.
      eexists _, _. split; [reflexivity|]. split; assumption.
    + eexists _, _. split; [reflexivity|]. split; reflexivity.
  - eexists _, _. split; [reflexivity|]. split; reflexivity.
Qed.

(** On a platform that is not Windows, [safe_path] returns its input. *)
Lemma safe_path_not_windows path w :
  startswith (sys_platform w) "win32" = false ->
  safe_path path w = (Ret path, w).
Proof.
  intros Hw. unfold safe_path, is_windows. run. rewrite Hw. reflexivity.
Qed.

(** C6, amended: when the target is not a directory, [rmtree] removes it
    as a single file, and an error of that removal goes to the error
    handler that [ignore_errors] and the platform select: it is swallowed,
    and [rmtree] returns normally, when [ignore_errors] is set; it is
    raised to the caller when [ignore_errors] is not set on a platform that
    is not Windows; on Windows, without [ignore_errors], the handler clears
    the read-only bit and retries. *)
Theorem rmtree_single_file path ignore_errors w p w1 :
  safe_path path w = (Ret p, w1) ->
  isdir p (os w1) = false ->
  (forall o', os_remove p (os w1) = inr o' ->
              rmtree path ignore_errors w = (Ret tt, with_os o' w1))
  /\ (forall m, os_remove p (os w1) = inl m ->
      rmtree path ignore_errors w =
      if ignore_errors then (Ret tt, w1)
      else if startswith (sys_platform w1) "win32"
           then os_call_exn (on_error false true f_remove p (OSError m)) w1
           else (Exc (OSError m), w1)).
Proof.
  intros Hs Hd. split.
  - intros o' Hr. unfold rmtree, bind at 1. rewrite Hs.
    unfold is_windows, bind, gets, try_except, os_call. rewrite Hd, Hr. reflexivity.
  - intros m Hr. unfold rmtree, bind at 1. rewrite Hs.
    unfold is_windows, bind, gets, try_except, os_call. rewrite Hd, Hr.
    destruct ignore_errors; simpl.
    + unfold os_call_exn. simpl. rewrite with_os_same. reflexivity.
    + destruct (startswith (sys_platform w1) "win32"); reflexivity.
Qed.

Lemma str_append_assoc (a b c : string) : (a ++ b) ++ c = a ++ b ++ c.
Proof. induction a as [|x a IH]; simpl; [reflexivity | now rewrite IH]. Qed.

Lemma log_error_then_exit msg code (w : world) :
  (log_error msg ;; raise (SystemExit code)) w
  = (Exc (SystemExit code) : result unit, snd (log_error msg w)).
Proof.
  unfold bind. destruct (log_error_returns msg w) as [text ->]. reflexivity.
Qed.

(** C1, amended: once the teardown of the subprocesses has returned,
    [abort] with an integer exits with that integer as status and logs the
    resolved context description (empty when there is no context); with a
    string it exits with status 1 and logs the context description, a colon
    and a newline, and the string when the context description is not
    empty, and the string alone when it is empty or there is no context. *)
Theorem abort_status_and_message context killsig w w1 :
  abort_teardown log_error killsig w = (Ret tt, w1) ->
  let contextMsg := match context with Some x => describe x | None => "" end in
  (forall n, abort (VInt n) context killsig w
             = (Exc (SystemExit n), snd (log_error (VStr contextMsg) w1)))
  /\ (forall s, abort (VStr s) context killsig w
                = (Exc (SystemExit 1),
                   snd (log_error (VStr (if nonempty contextMsg
                                         then contextMsg ++ ":" ++ nl ++ s
                                         else s)) w1))).
Proof.
  intros Ht contextMsg. split.
  - intros n. unfold abort, abort_with, bind at 1. rewrite Ht.
    unfold abort_resolve, lift, bind at 1, ret. fold contextMsg.
    apply log_error_then_exit.
  - intros s. unfold abort, abort_with, bind at 1. rewrite Ht.
    unfold abort_resolve, lift, bind at 1. fold contextMsg.
    destruct (nonempty contextMsg); unfold str_add, ret.
    + replace ((contextMsg ++ ":" ++ nl) ++ s) with (contextMsg ++ ":" ++ nl ++ s)
        by (rewrite str_append_assoc; reflexivity).
      apply log_error_then_exit.
    + apply log_error_then_exit.
Qed.

(** C7: what the code does on [abort(None)]. Once the teardown has
    returned, it prints the textual representation of the standard-error
    stream and exits with status 1; the docstring of [abort] and the claim
    give status 0. *)
Theorem abort_none_exits_with_1 killsig w w1 :
  abort_teardown log_error killsig w = (Ret tt, w1) ->
  abort VNone None killsig w
  = (Exc (SystemExit 1),
     with_stderr (stderr w1 ++ [Printed (stream_repr (sys_stderr w1) ++ nl)]) w1).
Proof.
  intros Ht. unfold abort, abort_with, bind at 1. rewrite Ht. reflexivity.
Qed.

(** C5: what the code does in [abort_or_warn]. With [should_abort] set it
    calls [abort] without the argument [abort] requires, so the call is
    rejected with a [TypeError] before any subprocess is cleaned up, any
    message logged or the process exited; with [should_abort] unset it is
    [warn(message, context)]. *)
Theorem abort_or_warn_routes message context w :
  abort_or_warn message true context w
  = (Exc (TypeError "abort() missing 1 required positional argument: 'codeOrMessage'"), w)
  /\ abort_or_warn message false context w = warn message context w.
Proof. split; reflexivity. Qed.

(** [get_os] on the platform identifiers it knows, in the order it tests
    them. *)
Lemma get_os_canonical w :
  let p := sys_platform w in
  (startswith p "darwin" = true -> get_os w = (Ret (VStr "darwin"), w))
  /\ (startswith p "darwin" = false -> startswith p "linux" = true ->
      get_os w = (Ret (VStr "linux"), w))
  /\ (startswith p "darwin" = false -> startswith p "linux" = false ->
      startswith p "openbsd" = true -> get_os w = (Ret (VStr "openbsd"), w))
  /\ (startswith p "darwin" = false -> startswith p "linux" = false ->
      startswith p "openbsd" = false -> startswith p "sunos" = true ->
      get_os w = (Ret (VStr "solaris"), w))
  /\ (startswith p "darwin" = false -> startswith p "linux" = false ->
      startswith p "openbsd" = false -> startswith p "sunos" = false ->
      startswith p "win32" = true -> get_os w = (Ret (VStr "windows"), w))
  /\ (startswith p "darwin" = false -> startswith p "linux" = false ->
      startswith p "openbsd" = false -> startswith p "sunos" = false ->
      startswith p "win32" = false -> startswith p "cygwin" = true ->
      get_os w = (Ret (VStr "cygwin"), w)).
Proof.
  intros p. subst p.
  unfold get_os, is_darwin, is_linux, is_openbsd, is_sunos, is_windows,
    is_cygwin, bind, gets, ret.
  repeat split; intros;
    repeat (cbv beta; match goal with
                      | H : startswith _ _ = _ |- _ => rewrite H; clear H
                      end);
    reflexivity.
Qed.

(** C4: what the code does on a platform identifier that none of the
    six prefixes matches. [get_os] calls [abort] without the argument
    [abort] requires: the call is rejected with a [TypeError], nothing is
    logged and no exit status is set. *)
Theorem get_os_unsupported w :
  forallb (fun prefix => negb (startswith (sys_platform w) prefix))
          ["darwin"; "linux"; "openbsd"; "sunos"; "win32"; "cygwin"] = true ->
  get_os w
  = (Exc (TypeError "abort() missing 1 required positional argument: 'codeOrMessage'"), w).
Proof.
  intros H. cbn [forallb] in H.
  repeat (apply andb_prop in H; destruct H as [?%negb_true_iff H]).
  unfold get_os, is_darwin, is_linux, is_openbsd, is_sunos, is_windows,
    is_cygwin, bind, gets, ret.
  repeat (cbv beta; match goal with
                    | H : startswith _ _ = false |- _ => rewrite H; clear H
                    end).
  reflexivity.
Qed.

(** What [safe_path] returns on Windows. *)
Lemma safe_path_windows path w :
  startswith (sys_platform w) "win32" = true ->
  fst (safe_path path w) =
  Ret (let p := normpath path in
       if isabs p then
         if startswith p "\\" then
           if startswith (slice_from 2 p) "?\" then p else "\\?\UNC" ++ p
         else "\\?\" ++ p
       else p).
Proof.
  intros Hw. unfold safe_path, is_windows, bind at 1 2, gets. rewrite Hw.
  unfold bind, when.
  destruct (_opts w) as [o|] eqn:Ho.
  - destruct (truthy (opts_verbose o) && contains "/" path).
    + destruct (warn_returns ("Forward slash in path on windows: " ++ path) _ Ho)
        as (w1 & Hwarn & _). rewrite Hwarn. reflexivity.
    + reflexivity.
  - reflexivity.
Qed.

(** C3: what the code does on an absolute UNC path on Windows. The
    long-path prefix and the UNC marker are put in front of the whole
    path, whose two leading backslashes stay: there are two backslashes
    after UNC, where the claim has one. *)
Theorem safe_path_unc w :
  startswith (sys_platform w) "win32" = true ->
  normpath "\\server\share\x" = "\\server\share\x" ->
  isabs "\\server\share\x" = true ->
  fst (safe_path "\\server\share\x" w) = Ret "\\?\UNC\\server\share\x".
Proof.
  intros Hw Hn Ha. rewrite (safe_path_windows _ _ Hw). cbv zeta.
  rewrite Hn, Ha. reflexivity.
Qed.

(** An absolute local path on Windows gets the long-path prefix. *)
Lemma safe_path_local w :
  startswith (sys_platform w) "win32" = true ->
  normpath "C:\a\b" = "C:\a\b" ->
  isabs "C:\a\b" = true ->
  fst (safe_path "C:\a\b" w) = Ret "\\?\C:\a\b".
Proof.
  intros Hw Hn Ha. rewrite (safe_path_windows _ _ Hw). cbv zeta.
  rewrite Hn, Ha. reflexivity.
Qed.

(** A path that carries the long-path prefix already is not prefixed
    again. *)
Lemma safe_path_escaped rest w :
  startswith (sys_platform w) "win32" = true ->
  normpath ("\\?\" ++ rest) = "\\?\" ++ rest ->
  fst (safe_path ("\\?\" ++ rest) w) = Ret ("\\?\" ++ rest).
Proof.
  intros Hw Hn. rewrite (safe_path_windows _ _ Hw). cbv zeta.
  rewrite Hn. destruct (isabs _); [|reflexivity].
  change (startswith ("\\?\" ++ rest) "\\") with (startswith ("\\" ++ "?\" ++ rest) "\\").
  rewrite startswith_app.
  change (slice_from 2 ("\\?\" ++ rest)) with ("?\" ++ rest).
  rewrite startswith_app. reflexivity.
Qed.

End Properties.

(** ** The properties on the concrete system *)

Lemma colorize_idempotent_red :
  In "red" (dict_keys _ansi_color_table)
  /\ (exists r, colorize (Some "hi") "red" true (sys_stderr sim_linux) sim_linux
                = (Ret (Some r), sim_linux)
                /\ colorize (Some r) "red" true (sys_stderr sim_linux) sim_linux
                   = (Ret (Some r), sim_linux)).
Proof.
  assert (H : In "red" (dict_keys _ansi_color_table)) by (simpl; auto).
  split; [exact H|].
  exact (proj1 (@colorize_idempotent sim_system "hi" "red" true
                  (sys_stderr sim_linux) sim_linux H)).
Defined.

Lemma log_none_blank_line :
  _opts sim_linux = Some (sim_opts None None)
  /\ truthy (opts_quiet (sim_opts None None)) = false
  /\ log VNone sim_linux = (Ret tt, with_stdout [Printed nl] sim_linux).
Proof.
  split; [reflexivity|]. split; [reflexivity|].
  exact (proj2 (@log_error_none_prints_the_stream sim_system sim_linux)
               (sim_opts None None) eq_refl eq_refl).
Defined.

Lemma logv_deferred_replay_verbose :
  _opts sim_linux = Some (sim_opts None None)
  /\ opts_verbose (sim_opts None None) = None
  /\ logv (VStr "m") sim_linux
     = (Ret tt, with_opts (Some (enqueue (Deferred_logv (VStr "m")) (sim_opts None None)))
                  sim_linux)
  /\ call_deferrable (Deferred_logv (VStr "m")) sim_verbose_parsed
     = (Ret tt, with_stdout [Printed ("m" ++ nl)] sim_verbose_parsed).
Proof.
  split; [reflexivity|]. split; [reflexivity|].
  destruct (proj1 (@logv_deferred_replay sim_system (VStr "m") sim_linux
                     (sim_opts None None) eq_refl) eq_refl) as [Hq Hr].
  split; [exact Hq|].
  exact (Hr sim_verbose_parsed (sim_opts (Some false) (Some true)) true eq_refl eq_refl).
Defined.

(** C8 as stated fails: with quiet mode on, a deferred [logv] call replayed
    when the verbose flag is set prints nothing. *)
Lemma logv_replay_quiet_prints_nothing :
  snd (logv (VStr "m") sim_quiet_early)
  = with_opts (Some (enqueue (Deferred_logv (VStr "m")) (sim_opts (Some true) None)))
      sim_quiet_early
  /\ _opts sim_quiet_parsed
     = Some (enqueue (Deferred_logv (VStr "m")) (sim_opts (Some true) (Some true)))
  /\ call_deferrable (Deferred_logv (VStr "m")) sim_quiet_parsed = (Ret tt, sim_quiet_parsed)
  /\ stdout sim_quiet_parsed = [].
Proof. repeat split. Qed.

Lemma kill_process_on_the_system :
  _opts sim_running = Some (sim_opts (Some true) (Some false))
  /\ os_getpgid 7 (os sim_linux) = inl "[Errno 3] No such process"
  /\ kill_process 7 SIGTERM sim_linux
     = (Exc (OSError "[Errno 3] No such process"), sim_linux)
  /\ os_getpgid 43 (os sim_running) = inr 42%Z
  /\ fst (kill_process 43 SIGTERM sim_running) = Ret true
  /\ os_getpgid 1 (os sim_running) = inr 1%Z
  /\ fst (kill_process 1 SIGTERM sim_running) = Ret false.
Proof.
  pose proof (@kill_process_delivery sim_system 7 SIGTERM sim_linux
                (sim_opts None None) eq_refl) as [H7 _].
  pose proof (@kill_process_delivery sim_system 43 SIGTERM sim_running
                (sim_opts (Some true) (Some false)) eq_refl) as [_ H43].
  pose proof (@kill_process_delivery sim_system 1 SIGTERM sim_running
                (sim_opts (Some true) (Some false)) eq_refl) as [_ H1].
  split; [reflexivity|]. split; [reflexivity|].
  split; [exact (H7 _ eq_refl)|]. split; [reflexivity|].
  split; [exact (f_equal fst (proj1 (H43 _ eq_refl) _ eq_refl))|].
  split; [reflexivity|].
  exact (f_equal fst (proj2 (H1 _ eq_refl) _ eq_refl)).
Defined.

(** C2 as stated fails: for a process id the system does not know,
    [kill_process] raises. *)
Lemma kill_process_raises :
  kill_process 7 SIGTERM sim_linux
  = (Exc (OSError "[Errno 3] No such process"), sim_linux).
Proof. reflexivity. Qed.

Lemma rmtree_on_the_system :
  safe_path "a.txt" sim_one_file = (Ret "a.txt", sim_one_file)
  /\ isdir "a.txt" (os sim_one_file) = false
  /\ fst (rmtree "a.txt" false sim_one_file) = Ret tt
  /\ os_remove "missing" (os sim_one_file)
     = inl "[Errno 2] No such file or directory: 'missing'"
  /\ rmtree "missing" true sim_one_file = (Ret tt, sim_one_file)
  /\ rmtree "missing" false sim_one_file
     = (Exc (OSError "[Errno 2] No such file or directory: 'missing'"), sim_one_file).
Proof.
  pose proof (fun i => @rmtree_single_file sim_system "a.txt" i sim_one_file
                         "a.txt" sim_one_file eq_refl eq_refl) as Ha.
  pose proof (fun i => @rmtree_single_file sim_system "missing" i sim_one_file
                         "missing" sim_one_file eq_refl eq_refl) as Hm.
  split; [reflexivity|]. split; [reflexivity|].
  split; [exact (f_equal fst (proj1 (Ha false) _ eq_refl))|].
  split; [reflexivity|].
  split; [exact (proj2 (Hm true) _ eq_refl) | exact (proj2 (Hm false) _ eq_refl)].
Defined.

(** C6 as stated fails: without [ignore_errors], on Linux, removing a
    single file that is not there raises. *)
Lemma rmtree_missing_file_raises :
  isdir "missing" (os sim_linux) = false
  /\ rmtree "missing" false sim_linux
     = (Exc (OSError "[Errno 2] No such file or directory: 'missing'"), sim_linux).
Proof. split; reflexivity. Qed.

Lemma abort_on_the_system :
  abort_teardown log_error SIGTERM sim_linux = (Ret tt, sim_linux)
  /\ abort (VInt 0) None SIGTERM sim_linux
     = (Exc (SystemExit 0), with_stderr [Printed nl] sim_linux)
  /\ abort (VInt 5) None SIGTERM sim_linux
     = (Exc (SystemExit 5), with_stderr [Printed nl] sim_linux)
  /\ abort (VStr "boom") None SIGTERM sim_linux
     = (Exc (SystemExit 1), with_stderr [Printed ("boom" ++ nl)] sim_linux)
  /\ abort (VStr "boom") (Some (CtxOther "ctx")) SIGTERM sim_linux
     = (Exc (SystemExit 1),
        with_stderr [Printed ("ctx:" ++ nl ++ "boom" ++ nl)] sim_linux).
Proof.
  pose proof (fun c => @abort_status_and_message sim_system c SIGTERM
                         sim_linux sim_linux eq_refl) as H.
  split; [reflexivity|].
  split; [exact (proj1 (H None) 0%Z)|].
  split; [exact (proj1 (H None) 5%Z)|].
  split; [exact (proj2 (H None) "boom")|].
  exact (proj2 (H (Some (CtxOther "ctx"))) "boom").
Defined.

(** C1 as stated fails: with a context that is supplied and describes
    itself by the empty string, the message is logged alone, without the
    colon and the newline in front of it; and when terminating a tracked
    subprocess fails outside the guarded retry, [abort] raises that error
    and neither logs the message nor exits. *)
Lemma abort_empty_context_description :
  abort (VStr "boom") (Some (CtxOther "")) SIGTERM sim_linux
  = (Exc (SystemExit 1), with_stderr [Printed ("boom" ++ nl)] sim_linux)
  /\ Printed ("boom" ++ nl) <> Printed ("" ++ ":" ++ nl ++ "boom" ++ nl)
  /\ abort (VInt 5) None SIGTERM sim_windows_child
     = (Exc (OSError "[Errno 1] Operation not permitted"), sim_windows_child).
Proof. split; [reflexivity | split; [discriminate | reflexivity]]. Qed.

Lemma abort_none_on_the_system :
  abort_teardown log_error SIGTERM sim_linux = (Ret tt, sim_linux)
  /\ abort VNone None SIGTERM sim_linux
     = (Exc (SystemExit 1), with_stderr [Printed ("<stderr>" ++ nl)] sim_linux).
Proof.
  split; [reflexivity|].
  exact (@abort_none_exits_with_1 sim_system SIGTERM sim_linux sim_linux eq_refl).
Defined.

Lemma get_os_freebsd :
  forallb (fun prefix => negb (startswith (sys_platform sim_freebsd) prefix))
          ["darwin"; "linux"; "openbsd"; "sunos"; "win32"; "cygwin"] = true
  /\ get_os sim_freebsd
     = (Exc (TypeError "abort() missing 1 required positional argument: 'codeOrMessage'"),
        sim_freebsd).
Proof.
  split; [reflexivity|].
  exact (@get_os_unsupported sim_system sim_freebsd eq_refl).
Defined.

Lemma safe_path_unc_on_the_system :
  startswith (sys_platform sim_windows) "win32" = true
  /\ @normpath sim_system "\\server\share\x" = "\\server\share\x"
  /\ @isabs sim_system "\\server\share\x" = true
  /\ fst (safe_path "\\server\share\x" sim_windows) = Ret "\\?\UNC\\server\share\x".
Proof.
  split; [reflexivity|]. split; [reflexivity|]. split; [reflexivity|].
  exact (@safe_path_unc sim_system sim_windows eq_refl eq_refl eq_refl).
Defined.

(** ** Further properties of the two modules *)

Section MoreProperties.
Context {sys : System}.

#[local] Arguments colorize_with : simpl never.
#[local] Arguments warn : simpl never.
#[local] Arguments log_error : simpl never.

(** What a call of [abort] comes to, step by step. *)
Lemma abort_outcome c context killsig w :
  abort c context killsig w =
  match abort_teardown log_error killsig w with
  | (Exc e, w1) => (Exc e, w1)
  | (Ret _, w1) =>
      match abort_resolve c context with
      | inl e => (Exc e, w1)
      | inr (m, code) => (Exc (SystemExit code), snd (log_error m w1))
      end
  end.
Proof.
  unfold abort, abort_with, bind at 1.
  destruct (abort_teardown log_error killsig w) as [[[]|e] w1]; [|reflexivity].
  unfold lift, bind at 1.
  destruct (abort_resolve c context) as [e|[m code]]; [reflexivity|].
  unfold ret. apply log_error_then_exit.
Qed.

(** X1: [abort] never returns normally. Whatever the message, the context,
    the signal and the state, a call ends in an exception: [SystemExit], or
    an error raised on the way to it. *)
Theorem abort_never_returns c context killsig w :
  exists e w', abort c context killsig w = (Exc e, w').
Proof.
  rewrite abort_outcome.
  destruct (abort_teardown log_error killsig w) as [[[]|e] w1]; [|eauto].
  destruct (abort_resolve c context) as [e|[m code]]; eauto.
Qed.


(** X3: [cpu_count] never answers more than the machine has, and with a
    cap set (not zero) it answers the smaller of the two. *)
Theorem cpu_count_bounded cpus cap :
  (cpu_count cpus cap <= cpus)%Z
  /\ (forall c, cap = Some c -> c <> 0%Z -> cpu_count cpus cap = Z.min cpus c)
  /\ (cap = None \/ cap = Some 0%Z -> cpu_count cpus cap = cpus).
Proof.
  unfold cpu_count. split; [|split].
  - destruct cap as [c|]; [|apply Z.le_refl].
    destruct (c =? 0)%Z; [apply Z.le_refl|].
    destruct (cpus <=? c)%Z eqn:E; [apply Z.le_refl|].
    apply Z.leb_gt in E. apply Z.lt_le_incl, E.
  - intros c -> Hc. apply Z.eqb_neq in Hc. rewrite Hc.
    destruct (cpus <=? c)%Z eqn:E.
    + apply Z.leb_le in E. symmetry. apply Z.min_l, E.
    + apply Z.leb_gt in E. symmetry. apply Z.min_r, Z.lt_le_incl, E.
  - intros [->| ->]; reflexivity.
Qed.

Lemma startswith_cons p a r :
  startswith p (String a r) = true -> exists t, p = String a t /\ startswith t r = true.
Proof.
  unfold startswith. destruct p as [|b t]; simpl; [discriminate|].
  destruct (ascii_dec a b) as [->|]; [eauto | discriminate].
Qed.

(** X4: the platform tests do not overlap, so the order in which [get_os]
    makes them does not matter: whenever the platform identifier starts
    with one of the six prefixes, [get_os] returns the canonical name of
    that prefix and changes nothing. *)
Theorem get_os_by_prefix w prefix name :
  In (prefix, name)
     [("darwin", "darwin"); ("linux", "linux"); ("openbsd", "openbsd");
      ("sunos", "solaris"); ("win32", "windows"); ("cygwin", "cygwin")] ->
  startswith (sys_platform w) prefix = true ->
  get_os w = (Ret (VStr name), w).
Proof.
  intros Hin Hp.
  pose proof (get_os_canonical w) as G. cbv zeta in G.
  simpl in Hin.
  repeat (destruct Hin as [Heq|Hin];
          [injection Heq as <- <-;
           destruct (startswith_cons _ _ _ Hp) as (t & Hs & _);
           rewrite Hs in G, Hp;
           destruct G as (G1 & G2 & G3 & G4 & G5 & G6);
           first [apply G1 | apply G2 | apply G3 | apply G4 | apply G5 | apply G6];
           solve [reflexivity | exact Hp]|]).
  contradiction.
Qed.

(** X5: [get_os] has two outcomes only. It returns one of the six
    canonical names, or it raises the [TypeError] of the argument-less
    [abort]; it never falls through to return [None], and in either case
    it leaves the state as it was. *)
Theorem get_os_outcomes w :
  (exists name,
      In name ["darwin"; "linux"; "openbsd"; "solaris"; "windows"; "cygwin"]
      /\ get_os w = (Ret (VStr name), w))
  \/ get_os w
     = (Exc (TypeError "abort() missing 1 required positional argument: 'codeOrMessage'"), w).
Proof.
  unfold get_os, is_darwin, is_linux, is_openbsd, is_sunos, is_windows,
    is_cygwin, bind, gets, ret.
  repeat match goal with
         | |- context [startswith (sys_platform w) ?p] =>
             destruct (startswith (sys_platform w) p);
             [left; eexists; split; [|reflexivity]; simpl; tauto|]
         end.
  right. reflexivity.
Qed.

(** X6: quiet mode silences the three loggers. With [quiet] set, [log]
    returns without printing, for every message and for no message, and so
    do [logv] and [logvv] once their flag is determined, whatever it is. *)
Theorem quiet_silences_logging msg w o :
  _opts w = Some o ->
  truthy (opts_quiet o) = true ->
  log msg w = (Ret tt, w)
  /\ (forall b, opts_verbose o = Some b -> logv msg w = (Ret tt, w))
  /\ (forall b, opts_very_verbose o = Some b -> logvv msg w = (Ret tt, w)).
Proof.
  intros Ho Hq.
  assert (Hlog : log msg w = (Ret tt, w)) by (rewrite (log_not_quiet _ _ Ho), Hq; reflexivity).
  split; [exact Hlog|]. split; intros b Hb.
  - unfold logv, vars_opts, bind at 1. rewrite Ho, Hb. destruct b; [exact Hlog | reflexivity].
  - unfold logvv, vars_opts, bind at 1. rewrite Ho, Hb. destruct b; [exact Hlog | reflexivity].
Qed.

Lemma with_opts_same (w : world) o : _opts w = Some o -> with_opts (Some o) w = w.
Proof. destruct w; simpl; intros ->; reflexivity. Qed.

Lemma logv_defers msg w o :
  _opts w = Some o -> opts_verbose o = None ->
  logv msg w = (Ret tt, with_opts (Some (enqueue (Deferred_logv msg) o)) w).
Proof.
  intros Ho Hv. unfold logv, vars_opts, bind, append_deferrable.
  rewrite Ho, Hv, Ho. reflexivity.
Qed.

(** X7: early [logv] calls keep their order. A run of [logv] calls made
    while the verbose flag is not determined prints nothing and appends one
    closure per call to the queue, in call order, leaving the flags as they
    were; calling these closures in queue order once verbose is set and
    quiet is off prints the messages in the order of the calls. *)
Theorem logv_calls_keep_their_order msgs w o :
  _opts w = Some o ->
  opts_verbose o = None ->
  (exists o1,
      for_each msgs logv w = (Ret tt, with_opts (Some o1) w)
      /\ opts_parsed_deferrables o1
         = (opts_parsed_deferrables o ++ map Deferred_logv msgs)%list
      /\ opts_verbose o1 = None /\ opts_quiet o1 = opts_quiet o)
  /\ (forall w' o', _opts w' = Some o' -> opts_verbose o' = Some true ->
                    truthy (opts_quiet o') = false ->
      for_each (map Deferred_logv msgs) call_deferrable w'
      = (Ret tt, with_stdout (stdout w' ++ map (fun m => Printed (log_text m ++ nl)) msgs) w')).
Proof.
  intros Ho Hv. split.
  - revert w o Ho Hv. induction msgs as [|m r IH]; intros w o Ho Hv.
    + exists o. simpl. rewrite app_nil_r, (with_opts_same _ Ho). auto.
    + simpl. unfold bind. rewrite (logv_defers m _ Ho Hv).
      destruct (IH (with_opts (Some (enqueue (Deferred_logv m) o)) w)
                   (enqueue (Deferred_logv m) o) eq_refl Hv) as (o1 & Hrun & Hq & Hv1 & Hq1).
      exists o1. rewrite Hrun. split; [reflexivity|]. split; [|split; assumption].
      rewrite Hq. simpl. rewrite <- app_assoc. reflexivity.
  - induction msgs as [|m r IH]; intros w' o' Ho' Hv' Hq'.
    + simpl. rewrite app_nil_r. destruct w'; reflexivity.
    + cbn [map for_each]. unfold bind.
      rewrite (call_deferred_logv m _ Ho' Hv'), Hq'. cbn [andb negb].
      rewrite (IH (with_stdout (stdout w' ++ [Printed (log_text m ++ nl)]) w') o' Ho' Hv' Hq').
      cbn [stdout with_stdout]. rewrite <- app_assoc. reflexivity.
Qed.

(** X8: what [warn] prints. With warnings disabled it does nothing. With
    warnings enabled and a string message it returns after appending one
    line to standard error and touching nothing else; on a stream that is
    not an interactive terminal the line is WARNING: and the message, with
    the context description, a colon and a newline in front of the message
    whenever a context is given, also when that description is empty. *)
Theorem warn_output s context w o :
  _opts w = Some o ->
  (opts_warn o = false -> forall msg, warn msg context w = (Ret tt, w))
  /\ (opts_warn o = true ->
      let pre := match context with
                 | Some c => describe c ++ ":" ++ nl
                 | None => ""
                 end in
      (exists text, warn (VStr s) context w
                    = (Ret tt, with_stderr (stderr w ++ [Printed (text ++ nl)]) w))
      /\ (stream_is_tty (sys_stderr w) = false ->
          warn (VStr s) context w
          = (Ret tt,
             with_stderr (stderr w ++ [Printed (("WARNING: " ++ pre ++ s) ++ nl)]) w))).
Proof.
  intros Ho. split.
  - intros Hw msg. unfold warn, warn_with, bind at 1. rewrite Ho, Hw. reflexivity.
  - intros Hw pre.
    assert (Hrun : warn (VStr s) context w
                   = (c <- colorize_with (fun m => abort m None SIGTERM)
                             (Some ("WARNING: " ++ pre ++ s)) "magenta" true (sys_stderr w) ;;
                      print_stderr (str_of_colorized c)) w).
    { unfold warn, warn_with, bind at 1. rewrite Ho, Hw. unfold when, pre.
      destruct context; reflexivity. }
    rewrite Hrun. unfold bind.
    rewrite (@colorize_with_supported _ _ _ "magenta" true _ _ "35" eq_refl).
    split.
    + eexists. reflexivity.
    + intros Htty. cbv zeta. rewrite Htty, andb_false_r, andb_false_r. reflexivity.
Qed.

(** X9: [warn] needs a string. With warnings enabled, a message that is
    not a string makes [warn] raise [TypeError] before anything is
    printed. *)
Theorem warn_rejects_non_strings msg context w o :
  _opts w = Some o ->
  opts_warn o = true ->
  (forall s, msg <> VStr s) ->
  exists m, warn msg context w = (Exc (TypeError m), w).
Proof.
  intros Ho Hw Hs. unfold warn, warn_with, bind at 1. rewrite Ho, Hw.
  destruct msg as [|n|s]; [| |exfalso; exact (Hs s eq_refl)];
    destruct context; eexists; reflexivity.
Qed.

(** X10: no colour off Linux, macOS and FreeBSD. On a platform whose
    identifier starts with openbsd, sunos, win32 or cygwin, [colorize]
    with a supported colour returns the message unchanged, also on an
    interactive terminal. *)
Theorem colorize_plain_off_unix msg color bright st w :
  In color (dict_keys _ansi_color_table) ->
  existsb (startswith (sys_platform w)) ["openbsd"; "sunos"; "win32"; "cygwin"] = true ->
  colorize (Some msg) color bright st w = (Ret (Some msg), w).
Proof.
  intros Hin Hp.
  assert (Hcode : exists code, dict_get color _ansi_color_table = Some code).
  { simpl in Hin.
    repeat (destruct Hin as [<-|Hin]; [eexists; reflexivity|]). contradiction. }
  destruct Hcode as [code Hcode]. unfold colorize.
  rewrite (@colorize_with_supported _ _ _ _ _ _ _ _ Hcode). cbv zeta.
  assert (Hu : isUnix (sys_platform w) = false).
  { cbn [existsb] in Hp.
    repeat (apply orb_prop in Hp; destruct Hp as [Hp|Hp];
            [destruct (startswith_cons _ _ _ Hp) as (t & -> & _); reflexivity|]).
    discriminate. }
  rewrite Hu, andb_false_r. reflexivity.
Qed.

Lemma startswith_split s a b :
  startswith s (a ++ b) = startswith s a && startswith (slice_from (String.length a) s) b.
Proof.
  unfold startswith. revert s. induction a as [|c a IH]; intros s; simpl.
  - destruct s; reflexivity.
  - destruct s as [|d s]; [reflexivity|]. simpl.
    destruct (ascii_dec c d); [apply IH | reflexivity].
Qed.

Lemma warn_disabled msg context w o :
  _opts w = Some o -> opts_warn o = false -> warn msg context w = (Ret tt, w).
Proof.
  intros Ho Hw. unfold warn, warn_with, bind at 1. rewrite Ho, Hw. reflexivity.
Qed.

(** X11: when [safe_path] speaks. It changes nothing at all unless the
    platform is Windows, verbose is set and the path holds a forward slash;
    then it calls [warn] and prints a stack trace on standard error, and
    the stack trace is printed also when warnings are disabled and [warn]
    itself prints nothing. *)
Theorem safe_path_emissions path w :
  (startswith (sys_platform w) "win32"
   && match _opts w with Some o => truthy (opts_verbose o) | None => false end
   && contains "/" path = false ->
   snd (safe_path path w) = w)
  /\ (forall o, _opts w = Some o ->
      startswith (sys_platform w) "win32" = true ->
      truthy (opts_verbose o) = true ->
      contains "/" path = true ->
      exists w1,
        warn (VStr ("Forward slash in path on windows: " ++ path)) None w = (Ret tt, w1)
        /\ snd (safe_path path w) = with_stderr (stderr w1 ++ [StackTrace]) w1
        /\ (opts_warn o = false -> w1 = w)).
Proof.
  split.
  - intros H. unfold safe_path, is_windows, bind, gets, when.
    destruct (startswith (sys_platform w) "win32"); [|reflexivity].
    destruct (_opts w) as [o|]; [|reflexivity].
    destruct (truthy (opts_verbose o)); [|reflexivity].
    destruct (contains "/" path); [discriminate | reflexivity].
  - intros o Ho Hw Hv Hc.
    destruct (@warn_returns _ ("Forward slash in path on windows: " ++ path) _ _ Ho)
      as (w1 & Hwarn & _).
    exists w1. split; [exact Hwarn|]. split.
    + unfold safe_path, is_windows, bind at 1 2, gets. rewrite Ho, Hw, Hv, Hc.
      unfold when, andb, bind. rewrite Hwarn. reflexivity.
    + intros Hd. rewrite (warn_disabled _ _ _ Ho Hd) in Hwarn. congruence.
Qed.


(** X13: a safe path is safe already. On a platform that is not Windows
    this holds outright; on Windows, when [normpath] leaves paths with the
    long-path prefix alone and leaves normalized paths alone, passing what
    [safe_path] returned to [safe_path] again returns it as it is. *)
Theorem safe_path_idempotent path w p1 w1 :
  (forall q, startswith q "\\?\" = true -> normpath q = q) ->
  normpath (normpath path) = normpath path ->
  safe_path path w = (Ret p1, w1) ->
  fst (safe_path p1 w1) = Ret p1.
Proof.
  intros Hesc Hnorm Hs.
  destruct (safe_path_returns path w) as (p & w' & Hs' & _ & Hplat).
  rewrite Hs in Hs'. injection Hs' as <- <-.
  destruct (startswith (sys_platform w) "win32") eqn:Hw.
  - assert (Hp1 : fst (safe_path path w) = Ret p1) by (rewrite Hs; reflexivity).
    rewrite (safe_path_windows _ _ Hw) in Hp1. cbv zeta in Hp1.
    apply (f_equal (fun r => match r with Ret x => x | Exc _ => p1 end)) in Hp1.
    cbv beta iota in Hp1.
    rewrite <- Hplat in Hw. rewrite (safe_path_windows _ _ Hw). cbv zeta. f_equal.
    assert (Hfix : startswith p1 "\\?\" = true ->
                   (if isabs (normpath p1)
                    then if startswith (normpath p1) "\\"
                         then if startswith (slice_from 2 (normpath p1)) "?\"
                              then normpath p1 else "\\?\UNC" ++ normpath p1
                         else "\\?\" ++ normpath p1
                    else normpath p1) = p1).
    { intros Hpre. rewrite (Hesc _ Hpre).
      change "\\?\" with ("\\" ++ "?\") in Hpre. rewrite startswith_split in Hpre.
      apply andb_prop in Hpre. destruct Hpre as [-> E2].
      change (String.length "\\") with 2%nat in E2. rewrite E2.
      destruct (isabs p1); reflexivity. }
    destruct (isabs (normpath path)) eqn:Ha.
    + destruct (startswith (normpath path) "\\") eqn:E1.
      * destruct (startswith (slice_from 2 (normpath path)) "?\") eqn:E2.
        -- apply Hfix. rewrite <- Hp1. change "\\?\" with ("\\" ++ "?\").
           rewrite startswith_split, E1. exact E2.
        -- apply Hfix. rewrite <- Hp1. reflexivity.
      * apply Hfix. rewrite <- Hp1. apply startswith_app.
    + rewrite <- Hp1, Hnorm, Ha. reflexivity.
  - rewrite safe_path_not_windows in Hs by exact Hw. injection Hs as <- <-.
    rewrite safe_path_not_windows by exact Hw. reflexivity.
Qed.

Lemma bind_ret {A B} (m : M world A) (k : A -> M world B) w a w1 :
  m w = (Ret a, w1) -> bind m k w = k a w1.
Proof. intros H. unfold bind. rewrite H. reflexivity. Qed.

Lemma for_each_skip {X} (l : list X) (body : X -> M world unit) w :
  (forall x, In x l -> body x w = (Ret tt, w)) ->
  for_each l body w = (Ret tt, w).
Proof.
  induction l as [|x r IH]; intros H; [reflexivity|].
  simpl. rewrite (bind_ret _ _ _ (H x (or_introl eq_refl))).
  apply IH. intros y Hy. apply H. right. exact Hy.
Qed.

(** [log] and [logv] touch neither the operating system, the platform nor
    the registry, and keep an options record in place. *)
Lemma log_frame msg w :
  os (snd (log msg w)) = os w
  /\ sys_platform (snd (log msg w)) = sys_platform w
  /\ _currentSubprocesses (snd (log msg w)) = _currentSubprocesses w.
Proof.
  unfold log, vars_opts, bind. destruct (_opts w) as [o|]; [|auto].
  destruct (truthy (opts_quiet o)); [auto|]. destruct msg; auto.
Qed.

Lemma logv_returns msg w o :
  _opts w = Some o ->
  exists w1, logv msg w = (Ret tt, w1) /\ os w1 = os w
             /\ sys_platform w1 = sys_platform w
             /\ _currentSubprocesses w1 = _currentSubprocesses w
             /\ exists o1, _opts w1 = Some o1 /\ opts_verbose o1 = opts_verbose o.
Proof.
  intros Ho. unfold logv, vars_opts, bind, append_deferrable. rewrite Ho.
  destruct (opts_verbose o) as [[|]|] eqn:Hv; simpl.
  - rewrite (log_not_quiet _ _ Ho). destruct (truthy (opts_quiet o));
      eexists; (split; [reflexivity|]); repeat (split; [reflexivity|]); exists o; auto.
  - exists w. repeat (split; [reflexivity|]). exists o; auto.
  - rewrite Ho. eexists. split; [reflexivity|]. repeat (split; [reflexivity|]).
    eexists. split; [reflexivity | exact Hv].
Qed.

(** X14: [send_sigquit] signals live Java children only. When every
    registry entry has no handle, or a process that is not running, or a
    command whose first argument does not end in the base name java (or
    no arguments at all), [send_sigquit] returns without sending a
    signal, printing or pausing: the state is as it was. *)
Theorem send_sigquit_without_java subs w :
  Forall (fun entry : option handle * list string =>
            match fst entry with
            | None => True
            | Some h =>
                match h with
                | Popen pid => popen_running pid (os w) = false
                | Process pid => process_is_alive pid (os w) = false
                | NotAProcess _ => False
                end
                \/ match h with NotAProcess _ => False | _ => True end
                   /\ match snd entry with
                      | a0 :: _ => String.eqb (last (split os_sep a0) EmptyString) "java"
                      | [] => false
                      end = false
            end) subs ->
  send_sigquit subs w = (Ret tt, w).
Proof.
  intros H. unfold send_sigquit. apply for_each_skip.
  intros [p args] Hin. rewrite Forall_forall in H. specialize (H _ Hin). simpl in H.
  destruct p as [h|]; [|reflexivity].
  unfold bind, is_process_alive, gets.
  destruct H as [H|[Hh Hj]].
  - destruct h; [rewrite H; reflexivity | rewrite H; reflexivity | contradiction].
  - destruct h; [| |contradiction]; rewrite Hj, andb_false_r; reflexivity.
Qed.

(** One entry at a time. *)
Lemma for_each_cons {X} (x : X) r (body : X -> M world unit) w :
  for_each (x :: r) body w =
  match for_each [x] body w with
  | (Ret _, w1) => for_each r body w1
  | (Exc e, w1) => (Exc e, w1)
  end.
Proof.
  cbn [for_each]. unfold bind, ret. destruct (body x w) as [[[]|e] w1]; reflexivity.
Qed.

Lemma send_sigquit_cons e r w :
  send_sigquit (e :: r) w =
  match send_sigquit [e] w with
  | (Ret _, w1) => send_sigquit r w1
  | (Exc x, w1) => (Exc x, w1)
  end.
Proof. unfold send_sigquit. apply for_each_cons. Qed.

(** X15: on Windows [send_sigquit] sends nothing. Whatever the registry
    holds, all that happens to the operating system is the pause after
    each live Java child: its state is that of some number of sleeps, at
    most one per entry, and no call of [os.kill] is made. *)
Theorem send_sigquit_on_windows subs w :
  startswith (sys_platform w) "win32" = true ->
  exists k, k <= List.length subs
            /\ os (snd (send_sigquit subs w)) = Nat.iter k time_sleep (os w).
Proof.
  revert w. induction subs as [|[p args] r IH]; intros w Hw.
  - exists 0. split; [apply Nat.le_refl | reflexivity].
  - assert (H1 : exists k1, k1 <= 1
                 /\ os (snd (send_sigquit [(p, args)] w)) = Nat.iter k1 time_sleep (os w)
                 /\ sys_platform (snd (send_sigquit [(p, args)] w)) = sys_platform w).
    { destruct (send_sigquit [(p, args)] w) as [res w1] eqn:E. cbn [snd].
      unfold send_sigquit in E. cbn [for_each] in E.
      unfold bind, when, is_windows, is_process_alive, gets, ret, raise, sleep, modify in E.
      pose proof (log_frame (VStr "mx: implement me! want to send SIGQUIT to my child process") w)
        as (Fo & Fp & _).
      destruct p as [[pid|pid|repr]|]; cbv beta iota in E;
        try (injection E as <- <-; exists 0; auto);
        match type of E with
        | context [if ?b && ?j then _ else _] => destruct b, j; cbn [andb] in E
        end; cbv beta iota in E;
        try (injection E as <- <-; exists 0; auto);
        rewrite Hw in E;
        destruct (log _ w) as [[[]|x] w2]; cbn [snd] in Fo, Fp; cbv beta iota in E;
        injection E as <- <-;
        [exists 1; cbn [os sys_platform with_os]; rewrite Fo; auto
        |exists 0; auto
        |exists 1; cbn [os sys_platform with_os]; rewrite Fo; auto
        |exists 0; auto]. }
    destruct H1 as (k1 & Hk1 & Hos1 & Hp1).
    rewrite send_sigquit_cons.
    destruct (send_sigquit [(p, args)] w) as [[[]|x] w1]; simpl in *.
    + rewrite <- Hp1 in Hw. destruct (IH w1 Hw) as (k & Hk & Hos).
      exists (k + k1). split.
      * apply Nat.le_trans with (k + 1); [apply Nat.add_le_mono_l, Hk1|].
        rewrite Nat.add_1_r. apply le_n_S, Hk.
      * rewrite Hos, Hos1. symmetry. apply Nat.iter_add.
    + exists k1. split; [apply Nat.le_trans with 1; [exact Hk1 | apply le_n_S, Nat.le_0_l]|].
      exact Hos1.
Qed.

Lemma gets_run {A} (f : world -> A) w : gets f w = (Ret (f w), w).
Proof. reflexivity. Qed.

(** X16: with no tracked subprocess running, [abort] signals nothing. When
    every registry entry is a process that is not alive, the teardown
    returns and leaves the operating system as it was, no signal sent and
    no pause made, and [abort] with an integer exits with that integer. *)
Theorem abort_with_nothing_running killsig w :
  Forall (fun entry : option handle * list string =>
            match fst entry with
            | Some (Popen pid) => popen_running pid (os w) = false
            | Some (Process pid) => process_is_alive pid (os w) = false
            | _ => False
            end) (_currentSubprocesses w) ->
  (exists w1, abort_teardown log_error killsig w = (Ret tt, w1) /\ os w1 = os w)
  /\ (forall n context,
         exists w2, abort (VInt n) context killsig w = (Exc (SystemExit n), w2)
                    /\ os w2 = os w).
Proof.
  intros H. rewrite Forall_forall in H.
  assert (Hdead : forall w' p args, os w' = os w -> In (p, args) (_currentSubprocesses w) ->
                                    is_process_alive p w' = (Ret false, w')).
  { intros w' p args Hos Hin. specialize (H _ Hin). cbn [fst] in H.
    destruct p as [[pid|pid|repr]|]; try contradiction;
      unfold is_process_alive, gets; rewrite Hos, H; reflexivity. }
  assert (Ht : exists w1, abort_teardown log_error killsig w = (Ret tt, w1) /\ os w1 = os w).
  { unfold abort_teardown.
    rewrite (bind_ret _ _ w (gets_run _ w)).
    match goal with
    | |- context [bind (when ?b ?m) ?k] =>
        assert (P1 : exists w', when b m w = (Ret tt, w') /\ os w' = os w
                                /\ _currentSubprocesses w' = _currentSubprocesses w)
    end.
    { destruct (_opts w) as [o|] eqn:Ho; [|exists w; auto].
      destruct (truthy (opts_killwithsigquit o)); [|exists w; auto].
      unfold when.
      destruct (logv_returns (VStr "sending SIGQUIT to subprocesses on abort") w Ho)
        as (w' & Hl & Hos & _ & Hsubs & _).
      rewrite (bind_ret _ _ w Hl), (bind_ret _ _ w' (gets_run _ w')).
      exists w'. split; [|auto].
      unfold send_sigquit. apply for_each_skip. intros [p args] Hin.
      rewrite Hsubs in Hin. pose proof (Hdead w' p args Hos Hin) as Hd.
      destruct p as [h|]; [|reflexivity].
      rewrite (bind_ret _ _ w' Hd). reflexivity. }
    destruct P1 as (w' & HP1 & Hos & Hsubs).
    rewrite (bind_ret _ _ w HP1), (bind_ret _ _ w' (gets_run _ w')).
    erewrite bind_ret;
      [|apply for_each_skip; intros [p args] Hin; rewrite Hsubs in Hin;
        pose proof (Hdead w' p args Hos Hin) as Hd;
        rewrite (bind_ret _ _ w' Hd); cbn [when];
        rewrite (bind_ret _ _ w' (a := tt) (w1 := w') eq_refl);
        rewrite (bind_ret _ _ w' Hd); reflexivity].
    rewrite (bind_ret _ _ w' (gets_run _ w')).
    destruct (match _opts w' with Some o => truthy (opts_verbose o) | None => false end).
    - eexists. split; [reflexivity | exact Hos].
    - exists w'. split; [reflexivity | exact Hos]. }
  split; [exact Ht|].
  intros n context. destruct Ht as (w1 & Ht & Hos).
  rewrite abort_outcome, Ht. cbn [abort_resolve].
  destruct (log_error_returns
              (VStr match context with Some c => describe c | None => "" end) w1)
    as [text ->].
  eexists. split; [reflexivity|]. exact Hos.
Qed.

(** X17: an entry without a handle. [send_sigquit] skips a registry entry
    whose handle is [None]; the loop of [abort] does not, and with such an
    entry in front (and no quit signal configured) [abort] fails the
    assertion of [is_process_alive] before it signals, logs or exits. *)
Theorem abort_asserts_on_missing_handle c context killsig args rest w :
  _currentSubprocesses w = (None, args) :: rest ->
  match _opts w with Some o => truthy (opts_killwithsigquit o) | None => false end = false ->
  abort c context killsig w = (Exc (AssertionError "None"), w)
  /\ send_sigquit ((None, args) :: rest) w = send_sigquit rest w.
Proof.
  intros Hsubs Hk. split; [|reflexivity].
  rewrite abort_outcome. unfold abort_teardown.
  rewrite (bind_ret _ _ w (gets_run _ w)), Hk. cbn [when].
  rewrite (bind_ret _ _ w (a := tt) (w1 := w) eq_refl).
  rewrite (bind_ret _ _ w (gets_run _ w)), Hsubs. reflexivity.
Qed.

(** X18: the quit signal goes to the child alone. Off Windows, for a
    running child whose command ends in the base name java, [send_sigquit]
    notes the signal through [logv], sends SIGQUIT with [os.kill] to the
    process id of the child (not to its group) and pauses; a failure of
    [os.kill] is not caught and reaches the caller. *)
Theorem send_sigquit_signals_java pid a0 args w o :
  _opts w = Some o ->
  startswith (sys_platform w) "win32" = false ->
  popen_running pid (os w) = true ->
  String.eqb (last (split os_sep a0) EmptyString) "java" = true ->
  let w1 := snd (logv (VStr ("sending SIGQUIT to " ++ str_of_Z pid)) w) in
  (forall o', os_kill pid SIGQUIT (os w) = inr o' ->
              send_sigquit [(Some (Popen pid), a0 :: args)] w
              = (Ret tt, with_os (time_sleep o') w1))
  /\ (forall m, os_kill pid SIGQUIT (os w) = inl m ->
                send_sigquit [(Some (Popen pid), a0 :: args)] w = (Exc (OSError m), w1)).
Proof.
  intros Ho Hw Hrun Hj w1.
  destruct (logv_returns (VStr ("sending SIGQUIT to " ++ str_of_Z pid)) w Ho)
    as (w1' & Hl & Hos & _).
  assert (w1 = w1') as -> by (unfold w1; rewrite Hl; reflexivity).
  assert (Hrun1 : forall r,
             os_kill pid SIGQUIT (os w) = r ->
             send_sigquit [(Some (Popen pid), a0 :: args)] w
             = match r with
               | inl m => (Exc (OSError m), w1')
               | inr o' => (Ret tt, with_os (time_sleep o') w1')
               end).
  { intros r Hk.
    destruct (send_sigquit [(Some (Popen pid), a0 :: args)] w) as [res wf] eqn:E.
    unfold send_sigquit in E. cbn [for_each] in E.
    unfold bind, when, is_windows, is_process_alive, handle_pid, gets, ret, sleep,
      modify, os_call in E.
    rewrite Hrun, Hj in E. cbn [andb] in E. cbv beta iota in E.
    rewrite Hw in E. cbv beta iota in E. rewrite Hl in E. cbv beta iota in E.
    rewrite Hos, Hk in E. rewrite <- E. destruct r; reflexivity. }
  split.
  - intros o' Hk. exact (Hrun1 _ Hk).
  - intros m Hk. exact (Hrun1 _ Hk).
Qed.

Lemma logvv_frame msg w o :
  _opts w = Some o ->
  exists w1, logvv msg w = (Ret tt, w1) /\ os w1 = os w
             /\ sys_platform w1 = sys_platform w
             /\ exists o1, _opts w1 = Some o1 /\ opts_verbose o1 = opts_verbose o.
Proof.
  intros Ho. unfold logvv, vars_opts, bind, append_deferrable. rewrite Ho.
  destruct (opts_very_verbose o) as [[|]|] eqn:Hv; simpl.
  - rewrite (log_not_quiet _ _ Ho). destruct (truthy (opts_quiet o));
      eexists; (split; [reflexivity|]); repeat (split; [reflexivity|]); exists o; auto.
  - exists w. repeat (split; [reflexivity|]). exists o; auto.
  - rewrite Ho. eexists. split; [reflexivity|]. repeat (split; [reflexivity|]).
    eexists. split; reflexivity.
Qed.

(** [kill_process] past the group lookup: it returns, with [True] and the
    operating system after the delivery, or with [False] and the operating
    system as it was. *)
Lemma kill_process_runs pid sig w o g :
  _opts w = Some o ->
  os_getpgid pid (os w) = inr g ->
  exists b w1,
    kill_process pid sig w = (Ret b, w1)
    /\ sys_platform w1 = sys_platform w
    /\ (exists o1, _opts w1 = Some o1 /\ opts_verbose o1 = opts_verbose o)
    /\ match (if (g =? pid)%Z then os_killpg g sig else os_kill pid sig) (os w) with
       | inr o' => b = true /\ os w1 = o'
       | inl _ => b = false /\ os w1 = os w
       end.
Proof.
  intros Ho Hg.
  destruct (logvv_frame (VStr ("[" ++ str_of_Z (os_getpid (os w)) ++ " sending "
                               ++ str_of_Z sig ++ " to " ++ str_of_Z pid ++ "]")) w Ho)
    as (w1 & Hl & Hos & Hp & o1 & Ho1 & Hv1).
  assert (Hd : (if (g =? pid)%Z then os_call (os_killpg g sig)
                else os_call (os_kill pid sig)) w1
               = match (if (g =? pid)%Z then os_killpg g sig else os_kill pid sig) (os w) with
                 | inl m => (Exc (OSError m), w1)
                 | inr o' => (Ret tt, with_os o' w1)
                 end).
  { destruct (g =? pid)%Z; unfold os_call; rewrite Hos; reflexivity. }
  unfold kill_process, bind at 1. rewrite Hg.
  unfold try_except, bind at 1 2 3, gets. rewrite Hl, Hd.
  destruct ((if (g =? pid)%Z then os_killpg g sig else os_kill pid sig) (os w)) as [m|o'].
  - pose proof (log_frame (VStr ("Error killing subprocess " ++ str_of_Z pid ++ ": "
                                 ++ exn_str (OSError m))) w1) as (Fo & Fp & _).
    unfold bind, ret. rewrite (log_not_quiet _ _ Ho1) in *.
    destruct (truthy (opts_quiet o1)); cbn [snd] in Fo, Fp;
      eexists _, _; (split; [reflexivity|]);
      (split; [cbn; congruence|]); (split; [exists o1; cbn; auto|]); cbn; auto.
  - eexists _, _. split; [reflexivity|]. split; [exact Hp|].
    split; [exists o1; auto|]. auto.
Qed.

(** X23: the escalation of [abort], off Windows, for one tracked child
    that is running. [abort] sends it [killsig] through [kill_process] and
    pauses; when the child is gone after the pause nothing more is sent,
    and when it is still running [abort] sends SIGKILL; either way the
    teardown returns, and the operating system is the one the last
    delivery left. *)
Theorem abort_escalates_to_sigkill pid args killsig w o g1 o1 :
  _opts w = Some o ->
  truthy (opts_killwithsigquit o) = false ->
  startswith (sys_platform w) "win32" = false ->
  _currentSubprocesses w = [(Some (Popen pid), args)] ->
  popen_running pid (os w) = true ->
  os_getpgid pid (os w) = inr g1 ->
  (if (g1 =? pid)%Z then os_killpg g1 killsig else os_kill pid killsig) (os w) = inr o1 ->
  (popen_running pid (time_sleep o1) = false ->
   exists w1, abort_teardown log_error killsig w = (Ret tt, w1) /\ os w1 = time_sleep o1)
  /\ (popen_running pid (time_sleep o1) = true ->
      forall g2 o3,
        os_getpgid pid (time_sleep o1) = inr g2 ->
        (if (g2 =? pid)%Z then os_killpg g2 SIGKILL else os_kill pid SIGKILL) (time_sleep o1)
        = inr o3 ->
        exists w1, abort_teardown log_error killsig w = (Ret tt, w1) /\ os w1 = o3).
Proof.
  intros Ho Hk Hw Hsubs Hrun Hg1 Hd1.
  destruct (kill_process_runs pid killsig w Ho Hg1)
    as (b1 & wa & Hkill1 & Hpa & (oa & Hoa & _) & Hres1).
  rewrite Hd1 in Hres1. destruct Hres1 as [-> Hosa].
  assert (Hstart : forall res wf,
             abort_teardown log_error killsig w = (res, wf) ->
             (popen_running pid (time_sleep o1) = false ->
              res = Ret tt /\ os wf = time_sleep o1)
             /\ (popen_running pid (time_sleep o1) = true ->
                 forall g2 o3,
                   os_getpgid pid (time_sleep o1) = inr g2 ->
                   (if (g2 =? pid)%Z then os_killpg g2 SIGKILL else os_kill pid SIGKILL)
                     (time_sleep o1) = inr o3 ->
                   res = Ret tt /\ os wf = o3)).
  { intros res wf E. unfold abort_teardown in E.
    rewrite (bind_ret _ _ w (gets_run _ w)), Ho, Hk in E. cbn [when] in E.
    rewrite (bind_ret _ _ w (a := tt) (w1 := w) eq_refl) in E.
    rewrite (bind_ret _ _ w (gets_run _ w)), Hsubs in E. cbn [for_each] in E.
    unfold bind, when, is_process_alive, is_windows, handle_pid, gets, ret, sleep,
      modify, try_except in E.
    rewrite Hrun in E. cbv beta iota in E. rewrite Hw in E. cbv beta iota in E.
    rewrite Hkill1 in E. cbv beta iota in E.
    cbn [os with_os sys_platform _opts] in E. rewrite Hosa in E.
    split.
    - intros Hdead. rewrite Hdead in E. cbv beta iota in E.
      cbn [os with_os sys_platform _opts] in E.
      destruct (match _opts wa with Some o0 => truthy (opts_verbose o0) | None => false end);
        injection E as <- <-; split; reflexivity.
    - intros Halive g2 o3 Hg2 Hd2. rewrite Halive in E. cbv beta iota in E.
      cbn [os with_os sys_platform _opts] in E. rewrite Hpa, Hw in E. cbv beta iota in E.
      destruct (kill_process_runs pid SIGKILL (with_os (time_sleep o1) wa)
                  (o := oa) (g := g2) Hoa Hg2)
        as (b2 & wb & Hkill2 & _ & _ & Hres2).
      cbn [os with_os] in Hres2. rewrite Hd2 in Hres2. destruct Hres2 as [-> Hosb].
      rewrite Hkill2 in E. cbv beta iota in E.
      destruct (match _opts wb with Some o0 => truthy (opts_verbose o0) | None => false end);
        injection E as <- <-; split; try reflexivity; exact Hosb. }
  destruct (abort_teardown log_error killsig w) as [res wf] eqn:E.
  destruct (Hstart res wf eq_refl) as [H1 H2]. split.
  - intros Hdead. destruct (H1 Hdead) as [-> Hos]. exists wf. auto.
  - intros Halive g2 o3 Hg2 Hd2. destruct (H2 Halive g2 o3 Hg2 Hd2) as [-> Hos].
    exists wf. auto.
Qed.

(** X21: the read-only recovery of [rmtree] on Windows. Without
    [ignore_errors], when removing a single file fails, [rmtree] makes the
    path writable and retries with [os.unlink] (the path is still not a
    directory): it returns normally when both succeed, and raises the error
    of [os.chmod] or of the retry otherwise, not the error of the first
    removal. *)
Theorem rmtree_windows_recovery path w p w1 m :
  startswith (sys_platform w) "win32" = true ->
  safe_path path w = (Ret p, w1) ->
  isdir p (os w1) = false ->
  os_remove p (os w1) = inl m ->
  (forall m1, os_chmod p S_IWRITE (os w1) = inl m1 ->
              rmtree path false w = (Exc (OSError m1), w1))
  /\ (forall o1, os_chmod p S_IWRITE (os w1) = inr o1 -> isdir p o1 = false ->
      (forall o2, os_unlink p o1 = inr o2 -> rmtree path false w = (Ret tt, with_os o2 w1))
      /\ (forall m2, os_unlink p o1 = inl m2 ->
                     rmtree path false w = (Exc (OSError m2), w1))).
Proof.
  intros Hw Hs Hd Hr.
  destruct (safe_path_returns path w) as (p' & w' & Hs' & _ & Hplat).
  rewrite Hs in Hs'. injection Hs' as <- <-. rewrite <- Hplat in Hw.
  assert (Hrun : rmtree path false w
                 = os_call_exn (on_error false true f_remove p (OSError m)) w1).
  { unfold rmtree. rewrite (bind_ret _ _ w Hs).
    unfold is_windows, bind, gets, try_except, os_call. rewrite Hw, Hd, Hr. reflexivity. }
  rewrite Hrun. unfold os_call_exn, on_error. split.
  - intros m1 Hc. rewrite Hc. reflexivity.
  - intros o1 Hc Hd1. rewrite Hc, Hd1. split.
    + intros o2 Hu. rewrite Hu. reflexivity.
    + intros m2 Hu. rewrite Hu. reflexivity.
Qed.

(** X22: [log_error] in colour. On Linux, macOS or FreeBSD, with standard
    error an interactive terminal, a message that is not [None] is printed
    as its string between the bright-red escape sequence and the reset
    sequence, unless the string starts with that escape sequence
    already. *)
Theorem log_error_in_colour msg w :
  isUnix (sys_platform w) = true ->
  stream_is_tty (sys_stderr w) = true ->
  msg <> VNone ->
  startswith (py_str msg) (esc ++ "[31;1m") = false ->
  log_error msg w
  = (Ret tt,
     with_stderr
       (stderr w ++ [Printed (((esc ++ "[31;1m") ++ py_str msg ++ esc ++ "[0m") ++ nl)]) w).
Proof.
  intros Hu Ht Hn Hs.
  assert (Hrun : log_error msg w
                 = (c <- colorize_with (fun _ => ret tt) (Some (py_str msg)) "red" true
                           (sys_stderr w) ;;
                    print_stderr (str_of_colorized c)) w).
  { unfold log_error, log_error_with. destruct msg; [contradiction| |]; reflexivity. }
  rewrite Hrun. unfold bind.
  rewrite (@colorize_with_supported _ _ _ "red" true _ _ "31" eq_refl). cbv zeta.
  change (esc ++ "[" ++ ("31" ++ ";1") ++ "m") with (esc ++ "[31;1m").
  rewrite Hs, Hu, Ht. reflexivity.
Qed.


Section WrapperProperties.
Variables Mtime Stat File Ignore : Type.
Variable os_path_getmtime : string -> OS -> string + Mtime.
Variable os_stat os_lstat : string -> OS -> string + Stat.
Variable builtins_open : string -> string -> OS -> string + (File * OS).
Variable shutil_copytree : string -> string -> bool -> option Ignore -> OS -> string + OS.



End WrapperProperties.

End MoreProperties.

(** ** The further properties on the concrete system *)


Lemma cpu_count_capped_at_4 :
  4%Z <> 0%Z /\ cpu_count 8 (Some 4%Z) = Z.min 8 4.
Proof.
  assert (H : 4%Z <> 0%Z) by discriminate.
  split; [exact H|].
  exact (proj1 (proj2 (cpu_count_bounded 8 (Some 4%Z))) 4%Z eq_refl H).
Defined.

Lemma get_os_on_windows :
  startswith (sys_platform sim_windows) "win32" = true
  /\ get_os sim_windows = (Ret (VStr "windows"), sim_windows).
Proof.
  split; [reflexivity|].
  refine (@get_os_by_prefix sim_system sim_windows "win32" "windows" _ eq_refl).
  simpl. tauto.
Defined.

Lemma quiet_silences_logging_on_the_system :
  _opts sim_running = Some (sim_opts (Some true) (Some false))
  /\ truthy (opts_quiet (sim_opts (Some true) (Some false))) = true
  /\ log (VStr "m") sim_running = (Ret tt, sim_running)
  /\ logv (VStr "m") sim_running = (Ret tt, sim_running).
Proof.
  pose proof (@quiet_silences_logging sim_system (VStr "m") sim_running
                (sim_opts (Some true) (Some false)) eq_refl eq_refl) as (Hl & Hv & _).
  split; [reflexivity|]. split; [reflexivity|]. split; [exact Hl|].
  exact (Hv false eq_refl).
Defined.

Lemma logv_two_calls_in_order :
  _opts sim_linux = Some (sim_opts None None)
  /\ opts_verbose (sim_opts None None) = None
  /\ (exists o1, for_each [VStr "a"; VStr "b"] logv sim_linux
                 = (Ret tt, with_opts (Some o1) sim_linux)
                 /\ opts_parsed_deferrables o1
                    = [Deferred_logv (VStr "a"); Deferred_logv (VStr "b")])
  /\ for_each [Deferred_logv (VStr "a"); Deferred_logv (VStr "b")] call_deferrable
       sim_verbose_parsed
     = (Ret tt, with_stdout [Printed ("a" ++ nl); Printed ("b" ++ nl)] sim_verbose_parsed).
Proof.
  pose proof (@logv_calls_keep_their_order sim_system [VStr "a"; VStr "b"] sim_linux
                (sim_opts None None) eq_refl eq_refl) as (Hq & Hr).
  split; [reflexivity|]. split; [reflexivity|]. split.
  - destruct Hq as (o1 & Hrun & Hqueue & _). exists o1. split; [exact Hrun | exact Hqueue].
  - exact (Hr sim_verbose_parsed (sim_opts (Some false) (Some true)) eq_refl eq_refl eq_refl).
Defined.

Lemma warn_with_an_empty_context :
  _opts sim_linux = Some (sim_opts None None)
  /\ opts_warn (sim_opts None None) = true
  /\ stream_is_tty (sys_stderr sim_linux) = false
  /\ warn (VStr "m") (Some (CtxOther "")) sim_linux
     = (Ret tt, with_stderr [Printed ("WARNING: :" ++ nl ++ "m" ++ nl)] sim_linux).
Proof.
  split; [reflexivity|]. split; [reflexivity|]. split; [reflexivity|].
  exact (proj2 (proj2 (@warn_output sim_system "m" (Some (CtxOther "")) sim_linux
                         (sim_opts None None) eq_refl) eq_refl) eq_refl).
Defined.

Lemma warn_rejects_an_integer :
  (forall s, VInt 5 <> VStr s)
  /\ exists m, warn (VInt 5) None sim_linux = (Exc (TypeError m), sim_linux).
Proof.
  assert (H : forall s, VInt 5 <> VStr s) by (intros s; discriminate).
  split; [exact H|].
  exact (@warn_rejects_non_strings sim_system (VInt 5) None sim_linux
           (sim_opts None None) eq_refl eq_refl H).
Defined.

Lemma colorize_plain_on_windows :
  In "red" (dict_keys _ansi_color_table)
  /\ colorize (Some "hi") "red" true {| stream_isatty := Some true; stream_repr := "" |}
       sim_windows
     = (Ret (Some "hi"), sim_windows).
Proof.
  assert (H : In "red" (dict_keys _ansi_color_table)) by (simpl; auto).
  split; [exact H|].
  exact (@colorize_plain_off_unix sim_system "hi" "red" true
           {| stream_isatty := Some true; stream_repr := "" |} sim_windows H eq_refl).
Defined.

Lemma safe_path_emissions_on_the_system :
  snd (safe_path "a/b" sim_linux) = sim_linux
  /\ exists w1,
       snd (safe_path "C:/a" sim_windows) = with_stderr (stderr w1 ++ [StackTrace]) w1.
Proof.
  split.
  - exact (proj1 (@safe_path_emissions sim_system "a/b" sim_linux) eq_refl).
  - destruct (proj2 (@safe_path_emissions sim_system "C:/a" sim_windows)
                    (sim_opts None (Some true)) eq_refl eq_refl eq_refl eq_refl)
      as (w1 & _ & Hs & _).
    exists w1. exact Hs.
Defined.


Lemma safe_path_twice_on_the_system :
  safe_path "C:\a\b" sim_windows = (Ret "\\?\C:\a\b", sim_windows)
  /\ fst (safe_path "\\?\C:\a\b" sim_windows) = Ret "\\?\C:\a\b".
Proof.
  split; [reflexivity|].
  exact (@safe_path_idempotent sim_system "C:\a\b" sim_windows "\\?\C:\a\b" sim_windows
           (fun _ _ => eq_refl) eq_refl eq_refl).
Defined.

Lemma send_sigquit_without_java_on_the_system :
  send_sigquit [(None, ["x"]); (Some (Popen 7), ["/usr/bin/java"]);
                (Some (Popen 42), ["/usr/bin/javac"])] sim_running
  = (Ret tt, sim_running).
Proof.
  apply (@send_sigquit_without_java sim_system).
  apply Forall_cons; [exact I|].
  apply Forall_cons; [left; reflexivity|].
  apply Forall_cons; [right; split; [exact I | reflexivity]|].
  apply Forall_nil.
Defined.

Lemma send_sigquit_on_windows_on_the_system :
  startswith (sys_platform sim_windows_child) "win32" = true
  /\ exists k, k <= 1
               /\ os (snd (send_sigquit (_currentSubprocesses sim_windows_child)
                             sim_windows_child))
                  = Nat.iter k time_sleep (os sim_windows_child).
Proof.
  split; [reflexivity|].
  exact (@send_sigquit_on_windows sim_system (_currentSubprocesses sim_windows_child)
           sim_windows_child eq_refl).
Defined.

Lemma abort_with_a_finished_child :
  exists w2,
    abort (VInt 3) None SIGTERM
      (sim_world "linux" (sim_opts None None) false [(Some (Popen 7), ["x"])] sim_empty)
    = (Exc (SystemExit 3), w2)
    /\ os w2 = sim_empty.
Proof.
  refine (proj2 (@abort_with_nothing_running sim_system SIGTERM
                   (sim_world "linux" (sim_opts None None) false [(Some (Popen 7), ["x"])]
                      sim_empty) _) 3%Z None).
  apply Forall_cons; [reflexivity | apply Forall_nil].
Defined.

Lemma abort_with_a_missing_handle :
  abort (VInt 3) None SIGTERM
    (sim_world "linux" (sim_opts None None) false [(None, ["x"])] sim_empty)
  = (Exc (AssertionError "None"),
     sim_world "linux" (sim_opts None None) false [(None, ["x"])] sim_empty).
Proof.
  exact (proj1 (@abort_asserts_on_missing_handle sim_system (VInt 3) None SIGTERM ["x"] []
                  (sim_world "linux" (sim_opts None None) false [(None, ["x"])] sim_empty)
                  eq_refl eq_refl)).
Defined.

Lemma send_sigquit_to_a_java_child :
  popen_running 43 (os sim_running) = true
  /\ String.eqb (last (split (@os_sep sim_system) "/usr/bin/java") EmptyString) "java" = true
  /\ send_sigquit [(Some (Popen 43), ["/usr/bin/java"; "-version"])] sim_running
     = (Ret tt,
        @with_os sim_system
          (Build_sim [(1, 1); (42, 42); (43, 42)]%Z [] [(43, SIGQUIT)]%Z) sim_running).
Proof.
  split; [reflexivity|]. split; [reflexivity|].
  exact (proj1 (@send_sigquit_signals_java sim_system 43 "/usr/bin/java" ["-version"]
                  sim_running (sim_opts (Some true) (Some false))
                  eq_refl eq_refl eq_refl eq_refl) _ eq_refl).
Defined.



Lemma rmtree_missing_file_on_windows :
  safe_path "C:\gone" sim_windows = (Ret "\\?\C:\gone", sim_windows)
  /\ os_remove "\\?\C:\gone" (os sim_windows)
     = inl "[Errno 2] No such file or directory: '\\?\C:\gone'"
  /\ rmtree "C:\gone" false sim_windows
     = (Exc (OSError "[Errno 2] No such file or directory: '\\?\C:\gone'"), sim_windows).
Proof.
  split; [reflexivity|]. split; [reflexivity|].
  exact (proj1 (@rmtree_windows_recovery sim_system "C:\gone" sim_windows
                  "\\?\C:\gone" sim_windows _ eq_refl eq_refl eq_refl eq_refl)
               _ eq_refl).
Defined.

Lemma log_error_in_colour_on_a_terminal :
  VStr "boom" <> VNone
  /\ log_error (VStr "boom")
       (sim_world "linux" (sim_opts None None) true [] sim_empty)
     = (Ret tt,
        with_stderr [Printed (esc ++ "[31;1mboom" ++ esc ++ "[0m" ++ nl)]
          (sim_world "linux" (sim_opts None None) true [] sim_empty)).
Proof.
  assert (H : VStr "boom" <> VNone) by discriminate.
  split; [exact H|].
  exact (@log_error_in_colour sim_system (VStr "boom")
           (sim_world "linux" (sim_opts None None) true [] sim_empty)
           eq_refl eq_refl H eq_refl).
Defined.

Lemma abort_escalates_on_the_system :
  popen_running 43
    (time_sleep (Build_sim [(1, 1); (42, 42); (43, 42)]%Z [] [(43, SIGQUIT)]%Z : @OS sim_system))
  = true
  /\ exists w1,
       abort_teardown log_error SIGQUIT
         (sim_world "linux" (sim_opts (Some true) (Some false)) false
            [(Some (Popen 43), ["sleep"; "60"])]
            (Build_sim [(1, 1); (42, 42); (43, 42)]%Z [] []))
       = (Ret tt, w1)
       /\ os w1 = (Build_sim [(1, 1); (42, 42)]%Z [] [(43, SIGQUIT); (43, SIGKILL)]%Z
                   : @OS sim_system).
Proof.
  split; [reflexivity|].
  exact (proj2 (@abort_escalates_to_sigkill sim_system 43 ["sleep"; "60"] SIGQUIT
                  (sim_world "linux" (sim_opts (Some true) (Some false)) false
                     [(Some (Popen 43), ["sleep"; "60"])]
                     (Build_sim [(1, 1); (42, 42); (43, 42)]%Z [] []))
                  (sim_opts (Some true) (Some false)) 42%Z
                  (Build_sim [(1, 1); (42, 42); (43, 42)]%Z [] [(43, SIGQUIT)]%Z)
                  eq_refl eq_refl eq_refl eq_refl eq_refl eq_refl eq_refl)
               eq_refl 42%Z
               (Build_sim [(1, 1); (42, 42)]%Z [] [(43, SIGQUIT); (43, SIGKILL)]%Z)
               eq_refl eq_refl).
Defined.
